(** * Audit Trail System: configuration, session scope and bootstrap

    A shallow embedding of the three modules of the backend skeleton:

    - [app/core/config.py]: the [Settings] class, the cached loader
      [get_settings], the module-level [settings] and [validate_config];
    - [app/database.py] (imported by [main.py] as [app.db.session]): the
      module-level [engine], the session dependency [get_db], the probe
      [check_db_connection], [get_pool_stats], [close_db_connections];
    - [app/main.py]: the exception handlers, the startup and shutdown
      hooks and the [/health] route.

    Python strings are kept as UTF-8 byte strings; exceptions are values of
    an error monad over an explicit world (trace of external calls, the
    process environment, the [lru_cache] cell, open sessions, the pool). *)

From Stdlib Require Import ZArith String Ascii List Lia DecimalString.
From stdpp Require Import base option strings gmap.
Import ListNotations.

Open Scope string_scope.
Open Scope list_scope.
Open Scope Z_scope.

(** ** Python strings *)

(** A byte of a UTF-8 string starts a code point unless it has the form
    [10xxxxxx]. *)
Definition is_lead_byte (c : ascii) : bool :=
  negb (N.eqb (N.land (N_of_ascii c) 192) 128).

(** [len(s)]: Python counts code points, not bytes. *)
Fixpoint py_len (s : string) : Z :=
  match s with
  | EmptyString => 0
  | String c r => (if is_lead_byte c then 1 else 0) + py_len r
  end.

(** [s[:n]]: the first [n] code points of [s]. *)
Fixpoint py_take (n : nat) (s : string) : string :=
  match s with
  | EmptyString => EmptyString
  | String c r =>
      if is_lead_byte c then
        match n with
        | O => EmptyString
        | S n' => String c (py_take n' r)
        end
      else String c (py_take n r)
  end.

(** [s.startswith(p)]. *)
Definition startswith (s p : string) : bool := String.prefix p s.

(** ** Exceptions *)

(** One entry of [RequestValidationError.errors()]; [loc] holds the path
    components already turned into text by [str]. *)
Record validation_error : Type := {
  loc : list string;
  err_msg : string;
  err_type : string
}.

(** The classes the three modules raise, catch or register handlers for.
    [SQLAlchemyError name] stands for [sqlalchemy.exc.SQLAlchemyError] and
    its subclasses, [name] being the concrete class. [OtherException name]
    stands for a class that has no handler of its own, neither the
    application's nor the framework's: [HTTPException], which the
    framework answers itself, is not one of them and is left out. *)
Inductive exception_class : Type :=
| ValueError
| ValidationError
| RequestValidationError (errors : list validation_error)
| SQLAlchemyError (name : string)
| OtherException (name : string).

(** Everything a [raise] can carry. [Exc] are the instances of [Exception];
    [SystemExit] (raised by [sys.exit]) and [GeneratorExit] derive from
    [BaseException] only, so [except Exception] lets them through. *)
Inductive base_exception : Type :=
| Exc (cls : exception_class) (msg : string)
| SystemExit (code : Z)
| GeneratorExit.

(** [isinstance(e, Exception)]. *)
Definition is_Exception (e : base_exception) : bool :=
  match e with
  | Exc _ _ => true
  | _ => false
  end.

(** [isinstance(e, SQLAlchemyError)]. *)
Definition is_SQLAlchemyError (e : base_exception) : bool :=
  match e with
  | Exc (SQLAlchemyError _) _ => true
  | _ => false
  end.

Inductive outcome (A : Type) : Type :=
| Return (a : A)
| Raise (e : base_exception).
Arguments Return {A} a.
Arguments Raise {A} e.

(** ** [app/core/config.py]: the [Settings] class *)

Record Settings : Type := {
  APP_NAME : string;
  APP_VERSION : string;
  ENVIRONMENT : string;
  DEBUG : bool;
  DATABASE_URL : string;
  DB_POOL_SIZE : Z;
  DB_MAX_OVERFLOW : Z;
  DB_POOL_TIMEOUT : Z;
  SECRET_KEY : string;
  ALGORITHM : string;
  ACCESS_TOKEN_EXPIRE_MINUTES : Z;
  BCRYPT_ROUNDS : Z;
  CORS_ORIGINS : list string;
  REDIS_URL : string;
  REDIS_TTL : Z;
  RATE_LIMIT_PER_MINUTE : Z;
  AUDIT_LOG_RETENTION_DAYS : Z;
  MAX_AUDIT_LOGS_PER_REQUEST : Z;
  MAX_TASKS_PER_DAY : Z;
  MAX_TASK_TITLE_LENGTH : Z;
  MAX_TASK_DESCRIPTION_LENGTH : Z
}.

(** How pydantic turns the text of an environment variable into a value of
    the declared type. The library is not part of the repository: its
    coercions are an interface, [None] meaning a type error. A [str] field
    takes the text as it is. *)
Class EnvCoercion : Type := {
  parse_int : string -> option Z;
  parse_bool : string -> option bool;
  parse_str_list : string -> option (list string)
}.

(** The process environment merged with [.env], as the settings source
    sees it: names are case sensitive ([case_sensitive = True]). *)
Abbreviation environ := (gmap string string).

Section Fields.
Context `{EnvCoercion}.

(** A field read from the environment: the variable when it is set,
    else the declared default; [None] when the variable does not have
    the declared type or a field without default is unset. *)
Definition str_field (env : environ) (name : string) (default : option string)
  : option string :=
  match env !! name with
  | Some raw => Some raw
  | None => default
  end.

Definition int_field (env : environ) (name : string) (default : option Z)
  : option Z :=
  match env !! name with
  | Some raw => parse_int raw
  | None => default
  end.

Definition bool_field (env : environ) (name : string) (default : option bool)
  : option bool :=
  match env !! name with
  | Some raw => parse_bool raw
  | None => default
  end.

Definition list_field (env : environ) (name : string)
           (default : option (list string)) : option (list string) :=
  match env !! name with
  | Some raw => parse_str_list raw
  | None => default
  end.

(** The fields of the class body, in order, declared defaults as
    written there; [DATABASE_URL] and [SECRET_KEY] have none. *)
Definition read_fields (env : environ) : option Settings :=
  app_name ← str_field env "APP_NAME" (Some "Audit Trail System");
  app_version ← str_field env "APP_VERSION" (Some "1.0.0");
  environment ← str_field env "ENVIRONMENT" (Some "development");
  debug ← bool_field env "DEBUG" (Some true);
  database_url ← str_field env "DATABASE_URL" None;
  db_pool_size ← int_field env "DB_POOL_SIZE" (Some 10);
  db_max_overflow ← int_field env "DB_MAX_OVERFLOW" (Some 20);
  db_pool_timeout ← int_field env "DB_POOL_TIMEOUT" (Some 30);
  secret_key ← str_field env "SECRET_KEY" None;
  algorithm ← str_field env "ALGORITHM" (Some "HS256");
  expire ← int_field env "ACCESS_TOKEN_EXPIRE_MINUTES" (Some 1440);
  bcrypt_rounds ← int_field env "BCRYPT_ROUNDS" (Some 12);
  cors_origins ← list_field env "CORS_ORIGINS"
    (Some ["http://localhost:5173"; "http://localhost:3000"]);
  redis_url ← str_field env "REDIS_URL" (Some "redis://localhost:6379");
  redis_ttl ← int_field env "REDIS_TTL" (Some 3600);
  rate_limit ← int_field env "RATE_LIMIT_PER_MINUTE" (Some 60);
  retention ← int_field env "AUDIT_LOG_RETENTION_DAYS" (Some 365);
  max_logs ← int_field env "MAX_AUDIT_LOGS_PER_REQUEST" (Some 100);
  max_tasks ← int_field env "MAX_TASKS_PER_DAY" (Some 50);
  max_title ← int_field env "MAX_TASK_TITLE_LENGTH" (Some 200);
  max_description ← int_field env "MAX_TASK_DESCRIPTION_LENGTH" (Some 5000);
  Some {|
    APP_NAME := app_name;
    APP_VERSION := app_version;
    ENVIRONMENT := environment;
    DEBUG := debug;
    DATABASE_URL := database_url;
    DB_POOL_SIZE := db_pool_size;
    DB_MAX_OVERFLOW := db_max_overflow;
    DB_POOL_TIMEOUT := db_pool_timeout;
    SECRET_KEY := secret_key;
    ALGORITHM := algorithm;
    ACCESS_TOKEN_EXPIRE_MINUTES := expire;
    BCRYPT_ROUNDS := bcrypt_rounds;
    CORS_ORIGINS := cors_origins;
    REDIS_URL := redis_url;
    REDIS_TTL := redis_ttl;
    RATE_LIMIT_PER_MINUTE := rate_limit;
    AUDIT_LOG_RETENTION_DAYS := retention;
    MAX_AUDIT_LOGS_PER_REQUEST := max_logs;
    MAX_TASKS_PER_DAY := max_tasks;
    MAX_TASK_TITLE_LENGTH := max_title;
    MAX_TASK_DESCRIPTION_LENGTH := max_description
  |}.

(** [Settings()]: the instance, or pydantic's [ValidationError], whose
    text is the library's and is kept short here. *)
Definition Settings_new (env : environ) : outcome Settings :=
  match read_fields env with
  | Some cfg => Return cfg
  | None => Raise (Exc ValidationError "validation error for Settings")
  end.

End Fields.

(** ** The world the process runs in *)

Inductive level : Type := LvlDebug | LvlInfo | LvlWarning | LvlError.

(** The calls that leave the process, in the order they are made. *)
Inductive event : Type :=
| Log (lvl : level) (msg : string)
| Print (msg : string)
| ReadEnvironment
| CreateEngine (url : string) (pool_size max_overflow pool_timeout : Z)
               (pool_pre_ping echo : bool)
| SessionNew (sid : nat)
| SessionExecute (sid : nat) (sql : string)
| SessionRollback (sid : nat)
| SessionClose (sid : nat)
| EngineDispose
| ConnectionClose (conn : nat).

(** What the database answers to a statement. DB-API drivers and
    SQLAlchemy derive every error they raise from [Exception]. *)
Inductive query_result : Type :=
| QueryOk
| QueryError (cls : exception_class) (msg : string).

(** The pool behind [engine.pool]: its configured size, the connections
    checked in and the connections checked out. The model follows what
    [create_engine] and [engine.dispose()] do to it; which connection a
    session borrows and returns is the library's business and is not
    followed, so nothing below speaks of the counters after a session has
    run a statement. *)
Record pool_state : Type := {
  size : Z;
  checked_in : list nat;
  checked_out : list nat
}.

(** A [Settings] instance with its identity. *)
Record settings_object : Type := {
  settings_id : nat;
  settings_value : Settings
}.

Record Session : Type := { session_id : nat }.

Record world : Type := {
  trace : list event;
  os_environ : environ;
  settings_cache : option settings_object;
  next_id : nat;
  open_sessions : list nat;
  pool : pool_state;
  db_oracle : nat -> query_result;
  db_calls : nat;
  clock : Z
}.

Definition set_trace (t : list event) (w : world) : world :=
  {| trace := t; os_environ := os_environ w;
     settings_cache := settings_cache w; next_id := next_id w;
     open_sessions := open_sessions w; pool := pool w;
     db_oracle := db_oracle w; db_calls := db_calls w; clock := clock w |}.

Definition set_environ (env : environ) (w : world) : world :=
  {| trace := trace w; os_environ := env;
     settings_cache := settings_cache w; next_id := next_id w;
     open_sessions := open_sessions w; pool := pool w;
     db_oracle := db_oracle w; db_calls := db_calls w; clock := clock w |}.

Definition set_settings_cache (c : option settings_object) (w : world) : world :=
  {| trace := trace w; os_environ := os_environ w;
     settings_cache := c; next_id := next_id w;
     open_sessions := open_sessions w; pool := pool w;
     db_oracle := db_oracle w; db_calls := db_calls w; clock := clock w |}.

Definition set_next_id (n : nat) (w : world) : world :=
  {| trace := trace w; os_environ := os_environ w;
     settings_cache := settings_cache w; next_id := n;
     open_sessions := open_sessions w; pool := pool w;
     db_oracle := db_oracle w; db_calls := db_calls w; clock := clock w |}.

Definition set_open_sessions (l : list nat) (w : world) : world :=
  {| trace := trace w; os_environ := os_environ w;
     settings_cache := settings_cache w; next_id := next_id w;
     open_sessions := l; pool := pool w;
     db_oracle := db_oracle w; db_calls := db_calls w; clock := clock w |}.

Definition set_pool (p : pool_state) (w : world) : world :=
  {| trace := trace w; os_environ := os_environ w;
     settings_cache := settings_cache w; next_id := next_id w;
     open_sessions := open_sessions w; pool := p;
     db_oracle := db_oracle w; db_calls := db_calls w; clock := clock w |}.

Definition set_db_calls (n : nat) (w : world) : world :=
  {| trace := trace w; os_environ := os_environ w;
     settings_cache := settings_cache w; next_id := next_id w;
     open_sessions := open_sessions w; pool := pool w;
     db_oracle := db_oracle w; db_calls := n; clock := clock w |}.

(** A fresh process: nothing logged, nothing cached, no session, an
    engine not yet created. *)
Definition fresh_world (env : environ) (db : nat -> query_result) (now : Z)
  : world :=
  {| trace := []; os_environ := env; settings_cache := None; next_id := 0%nat;
     open_sessions := [];
     pool := {| size := 0; checked_in := []; checked_out := [] |};
     db_oracle := db; db_calls := 0%nat; clock := now |}.

(** ** Computations: state and exceptions *)

Definition M (A : Type) : Type := world -> outcome A * world.

#[global] Instance M_ret : MRet M := fun A a w => (Return a, w).

#[global] Instance M_bind : MBind M := fun A B f c w =>
  match c w with
  | (Return a, w') => f a w'
  | (Raise e, w') => (Raise e, w')
  end.

Definition raise {A : Type} (e : base_exception) : M A :=
  fun w => (Raise e, w).

(** Reading and updating the world. *)
Definition gets {A : Type} (f : world -> A) : M A :=
  fun w => (Return (f w), w).

Definition modify (f : world -> world) : M unit :=
  fun w => (Return tt, f w).

Definition emit (ev : event) : M unit :=
  modify (fun w => set_trace (trace w ++ [ev]) w).

(** [try: body / except Exception as e: handler]. Only instances of
    [Exception] reach the handler. *)
Definition try_except_Exception {A : Type} (body : M A)
           (handler : exception_class -> string -> M A) : M A :=
  fun w =>
    match body w with
    | (Raise (Exc cls msg), w') => handler cls msg w'
    | r => r
    end.

(** [try: body / finally: cleanup]. The cleanup runs on every exit; what
    the body returned or raised goes on unless the cleanup raises. *)
Definition try_finally {A : Type} (body : M A) (cleanup : M unit) : M A :=
  fun w =>
    match body w with
    | (r, w') =>
        match cleanup w' with
        | (Return _, w'') => (r, w'')
        | (Raise e, w'') => (Raise e, w'')
        end
    end.

(** [sys.exit(code)]. *)
Definition sys_exit {A : Type} (code : Z) : M A := raise (SystemExit code).

(** [time.time()]. *)
Definition time_time : M Z := gets clock.

Definition logger (lvl : level) (msg : string) : M unit := emit (Log lvl msg).

Definition print (msg : string) : M unit := emit (Print msg).

(** ** [app/core/config.py]: loader and validation *)

Section Config.
Context `{EnvCoercion}.

(** The body of [get_settings]: [return Settings()]. The instance is a
    new object. *)
Definition get_settings_body : M settings_object :=
  fun w =>
    match Settings_new (os_environ w) with
    | Return cfg =>
        (Return {| settings_id := next_id w; settings_value := cfg |},
         set_next_id (S (next_id w)) (set_trace (trace w ++ [ReadEnvironment]) w))
    | Raise e => (Raise e, set_trace (trace w ++ [ReadEnvironment]) w)
    end.

(** [@lru_cache()] on a function without arguments: one cell. A call
    that raises stores nothing. *)
Definition lru_cache (f : M settings_object) : M settings_object :=
  fun w =>
    match settings_cache w with
    | Some o => (Return o, w)
    | None =>
        match f w with
        | (Return o, w') => (Return o, set_settings_cache (Some o) w')
        | (Raise e, w') => (Raise e, w')
        end
    end.

Definition get_settings : M settings_object := lru_cache get_settings_body.

End Config.

(** The functions below the line [settings = get_settings()] read that
    module-level name: [settings] is the value bound there. *)

Definition is_production (settings : Settings) : bool :=
  String.eqb (ENVIRONMENT settings) "production".

Definition is_development (settings : Settings) : bool :=
  String.eqb (ENVIRONMENT settings) "development".

Definition weak_secret_message : string :=
  "SECRET_KEY must be at least 32 characters. " ++
  "Generate one with: openssl rand -hex 32".

Definition invalid_url_message (url : string) : string :=
  "DATABASE_URL must start with postgresql:// " ++
  "Got: " ++ py_take 20 url ++ "...".

Definition validate_config (settings : Settings) : M unit :=
  (if py_len (SECRET_KEY settings) <? 32
   then raise (Exc ValueError weak_secret_message)
   else mret tt) ;;
  (if is_production settings && DEBUG settings
   then print "⚠️  WARNING: DEBUG=True in production is a security risk!"
   else mret tt) ;;
  (if negb (startswith (DATABASE_URL settings) "postgresql://")
   then raise (Exc ValueError (invalid_url_message (DATABASE_URL settings)))
   else mret tt) ;;
  print "✅ Configuration validated successfully".

(** ** [app/database.py] *)

(** What SQLAlchemy makes of the arguments of [create_engine]: it parses
    the URL and loads the dialect and its driver, and raises when the URL
    does not parse, names a dialect or a driver that is not installed, or
    has a port that is not a number. The library is not part of the
    repository: its verdict is an interface, [None] when the engine is
    built, [Some (cls, msg)] when the call raises. *)
Class EngineLibrary : Type := {
  create_engine_error :
    forall (url : string) (pool_size max_overflow pool_timeout : Z),
      option (exception_class * string)
}.

Section Engine.
Context `{EngineLibrary}.

(** [create_engine(settings.DATABASE_URL, pool_size=..., max_overflow=...,
    pool_timeout=..., pool_pre_ping=True, echo=settings.DEBUG)], the
    statement the module runs when it is imported. When the library
    accepts the arguments the engine gets its pool at once, and no
    connection is opened before the first checkout; when it raises there
    is no engine. *)
Definition create_engine (settings : Settings) : M unit :=
  emit (CreateEngine (DATABASE_URL settings) (DB_POOL_SIZE settings)
          (DB_MAX_OVERFLOW settings) (DB_POOL_TIMEOUT settings)
          true (DEBUG settings)) ;;
  match create_engine_error (DATABASE_URL settings) (DB_POOL_SIZE settings)
                            (DB_MAX_OVERFLOW settings) (DB_POOL_TIMEOUT settings)
  with
  | Some (cls, msg) => raise (Exc cls msg)
  | None =>
      modify (set_pool {| size := DB_POOL_SIZE settings;
                          checked_in := []; checked_out := [] |})
  end.

End Engine.

(** The listeners registered on the engine. *)
Definition receive_connect : M unit :=
  logger LvlDebug "🔌 New database connection established".

Definition receive_close : M unit :=
  logger LvlDebug "🔌 Database connection closed".

(** [SessionLocal()]: a new session bound to the engine. *)
Definition SessionLocal : M Session :=
  sid ← gets next_id;
  emit (SessionNew sid) ;;
  modify (set_next_id (S sid)) ;;
  modify (fun w => set_open_sessions (open_sessions w ++ [sid]) w) ;;
  mret {| session_id := sid |}.

(** [db.execute(sql)]: the database decides. *)
Definition session_execute (db : Session) (sql : string) : M unit :=
  emit (SessionExecute (session_id db) sql) ;;
  answer ← gets (fun w => db_oracle w (db_calls w));
  modify (fun w => set_db_calls (S (db_calls w)) w) ;;
  match answer with
  | QueryOk => mret tt
  | QueryError cls msg => raise (Exc cls msg)
  end.

Definition session_rollback (db : Session) : M unit :=
  emit (SessionRollback (session_id db)).

(** [db.close()]: the session leaves the open ones. *)
Definition session_close (db : Session) : M unit :=
  emit (SessionClose (session_id db)) ;;
  modify (fun w =>
    set_open_sessions
      (List.filter (fun s => negb (Nat.eqb s (session_id db))) (open_sessions w)) w).

(** [get_db] is a generator with one [yield]. [get_db_enter] is the code
    up to the [yield]; the caller resumes the generator with [next] or
    throws an exception into it, and [get_db_resume] is the code from the
    [yield] on, the [yield] expression returning or raising accordingly. *)
Inductive resumption : Type :=
| Next
| Throw (e : base_exception).

Definition yield (r : resumption) : M unit :=
  match r with
  | Next => mret tt
  | Throw e => raise e
  end.

Definition get_db_enter : M Session := SessionLocal.

Definition get_db_resume (db : Session) (r : resumption) : M unit :=
  try_finally
    (try_except_Exception
       (yield r)
       (fun cls msg =>
          logger LvlError ("❌ Database error during request: " ++ msg) ;;
          session_rollback db ;;
          raise (Exc cls msg)))
    (session_close db ;;
     logger LvlDebug "✅ Database session closed").

(** The session scope: [fn] run on the session [get_db] yields, the
    generator driven the way [contextlib.contextmanager] drives it, which
    is how the framework runs a dependency with [yield]. [Some a] is the
    value of [fn]; [None] would be a generator that swallowed the
    exception thrown into it. *)
Definition run_scope {A : Type} (db : Session) (fn : Session -> M A)
  : M (option A) :=
  fun w =>
    match fn db w with
    | (Return a, w1) =>
        match get_db_resume db Next w1 with
        | (Return _, w2) => (Return (Some a), w2)
        | (Raise e, w2) => (Raise e, w2)
        end
    | (Raise e, w1) =>
        match get_db_resume db (Throw e) w1 with
        | (Return _, w2) => (Return None, w2)
        | (Raise e', w2) => (Raise e', w2)
        end
    end.

Definition get_db {A : Type} (fn : Session -> M A) : M (option A) :=
  db ← get_db_enter;
  run_scope db fn.

Definition check_db_connection : M bool :=
  try_except_Exception
    (db ← SessionLocal;
     session_execute db "SELECT 1" ;;
     session_close db ;;
     logger LvlInfo "✅ Database connection successful" ;;
     mret true)
    (fun cls msg =>
       logger LvlError ("❌ Database connection failed: " ++ msg) ;;
       mret false).

(** JSON-like values: what a handler returns and a response carries. *)
#[local] Set Warnings "-register-all".
Inductive json : Type :=
| JStr (s : string)
| JNum (n : Z)
| JList (l : list json)
| JDict (d : list (string * json)).

(** [str(n)] of an integer. *)
Definition str_int (n : Z) : string := NilZero.string_of_int (Z.to_int n).

(** [repr(value)], which an f-string writes for a list or a dict; the
    strings inside are taken to need no escaping. *)
Fixpoint repr (j : json) : string :=
  match j with
  | JStr s => "'" ++ s ++ "'"
  | JNum n => str_int n
  | JList l => "[" ++ String.concat ", " (map repr l) ++ "]"
  | JDict d =>
      "{" ++ String.concat ", "
               (map (fun kv : string * json =>
                       match kv with
                       | (k, v) => ("'" ++ k ++ "': " ++ repr v)%string
                       end) d) ++ "}"
  end.

(** [d[key]] on a dict literal. *)
Fixpoint dict_get (key : string) (d : list (string * json)) : option json :=
  match d with
  | [] => None
  | (k, v) :: r => if String.eqb k key then Some v else dict_get key r
  end.

(** [pool.size()], [pool.checkedout()], [pool.overflow()] and
    [pool.checkedin()] of a queue pool: the overflow is the number of
    connections beyond the configured size (negative below it). *)
Definition pool_checkedout (p : pool_state) : Z :=
  Z.of_nat (length (checked_out p)).

Definition pool_checkedin (p : pool_state) : Z :=
  Z.of_nat (length (checked_in p)).

Definition pool_overflow (p : pool_state) : Z :=
  pool_checkedin p + pool_checkedout p - size p.

Definition get_pool_stats : M json :=
  p ← gets pool;
  mret (JDict [("pool_size", JNum (size p));
               ("checked_out", JNum (pool_checkedout p));
               ("overflow", JNum (pool_overflow p));
               ("checked_in", JNum (pool_checkedin p))]).

(** [engine.dispose()]: every checked-in connection is closed, the [close]
    listener firing for each, and the engine gets a new, empty pool;
    connections still checked out are no longer the engine's. *)
Fixpoint close_connections (conns : list nat) : M unit :=
  match conns with
  | [] => mret tt
  | c :: r => emit (ConnectionClose c) ;; receive_close ;; close_connections r
  end.

Definition engine_dispose : M unit :=
  emit EngineDispose ;;
  p ← gets pool;
  close_connections (checked_in p) ;;
  modify (set_pool {| size := size p; checked_in := []; checked_out := [] |}).

Definition close_db_connections : M unit :=
  logger LvlInfo "🔌 Closing database connections..." ;;
  engine_dispose ;;
  logger LvlInfo "✅ All database connections closed".

(** ** [app/main.py] *)

Record Request : Type := {
  method : string;
  path : string
}.

(** A [JSONResponse]. *)
Record Response : Type := {
  status_code : Z;
  content : json
}.

Definition HTTP_200_OK : Z := 200.
Definition HTTP_422_UNPROCESSABLE_ENTITY : Z := 422.
Definition HTTP_500_INTERNAL_SERVER_ERROR : Z := 500.

(** [".".join(str(x) for x in error["loc"])]. *)
Definition join_loc (l : list string) : string := String.concat "." l.

Definition error_entry (e : validation_error) : json :=
  JDict [("field", JStr (join_loc (loc e)));
         ("message", JStr (err_msg e));
         ("type", JStr (err_type e))].

Definition validation_exception_handler (request : Request)
           (errors : list validation_error) : M Response :=
  let errs := map error_entry errors in
  logger LvlWarning ("❌ Validation error: " ++ repr (JList errs)) ;;
  now ← time_time;
  mret {| status_code := HTTP_422_UNPROCESSABLE_ENTITY;
          content := JDict [("error", JStr "Validation Error");
                            ("detail", JList errs);
                            ("timestamp", JNum now)] |}.

Definition database_error_detail : string :=
  "An error occurred while processing your request. Please try again later.".

Definition database_exception_handler (request : Request) (exc_text : string)
  : M Response :=
  logger LvlError ("❌ Database error on " ++ method request ++ " " ++
                   path request ++ ": " ++ exc_text) ;;
  now ← time_time;
  mret {| status_code := HTTP_500_INTERNAL_SERVER_ERROR;
          content := JDict [("error", JStr "Database Error");
                            ("detail", JStr database_error_detail);
                            ("timestamp", JNum now)] |}.

Definition general_exception_handler (request : Request) (exc_text : string)
  : M Response :=
  logger LvlError ("❌ Unhandled exception on " ++ method request ++ " " ++
                   path request ++ ": " ++ exc_text) ;;
  now ← time_time;
  mret {| status_code := HTTP_500_INTERNAL_SERVER_ERROR;
          content := JDict [("error", JStr "Internal Server Error");
                            ("detail", JStr "An unexpected error occurred. Our team has been notified.");
                            ("timestamp", JNum now)] |}.

(** The exception layer of the application. Of the three registrations
    of [setup_exception_handlers], those for [RequestValidationError] and
    [SQLAlchemyError] live in this layer, which picks the handler
    registered for the nearest class of the exception. The registration
    for [Exception] does not: the framework keeps it in its outermost
    server-error layer, which calls [general_exception_handler] only when
    the application was built with [debug] off ([debug=settings.DEBUG] in
    [create_application]) and raises the exception again in every case.
    So every other exception leaves this layer as it came. *)
Definition handle_exception (request : Request) (e : base_exception)
  : M Response :=
  match e with
  | Exc (RequestValidationError errors) _ =>
      validation_exception_handler request errors
  | Exc (SQLAlchemyError _) msg => database_exception_handler request msg
  | _ => raise e
  end.

(** A route served by the application, seen from outside its exception
    layer: the value the handler returns is sent with the default status
    of a [GET] route, an exception goes through the layer above. *)
Definition serve (request : Request) (handler : M json) : M Response :=
  fun w =>
    match handler w with
    | (Return body, w') =>
        (Return {| status_code := HTTP_200_OK; content := body |}, w')
    | (Raise e, w') => handle_exception request e w'
    end.

Definition health_check (settings : Settings) : M json :=
  db_healthy ← check_db_connection;
  pool_stats ← get_pool_stats;
  now ← time_time;
  mret (JDict [("status", JStr (if db_healthy : bool then "healthy" else "unhealthy"));
               ("database", JStr (if db_healthy : bool then "connected" else "disconnected"));
               ("pool_stats", pool_stats);
               ("timestamp", JNum now);
               ("version", JStr (APP_VERSION settings))]).

Definition bool_text (b : bool) : string := if b then "True" else "False".

Definition startup_event (settings : Settings) : M unit :=
  logger LvlInfo "🚀 Starting Audit Trail System..." ;;
  try_except_Exception
    (validate_config settings)
    (fun cls msg =>
       logger LvlError ("❌ Configuration validation failed: " ++ msg) ;;
       sys_exit 1) ;;
  ok ← check_db_connection;
  (if ok : bool then mret tt
   else logger LvlError "❌ Cannot connect to database. Exiting." ;;
        sys_exit 1) ;;
  pool_stats ← get_pool_stats;
  logger LvlInfo ("📊 Database pool: " ++ repr pool_stats) ;;
  logger LvlInfo "✅ Application started successfully" ;;
  logger LvlInfo ("🌍 Environment: " ++ ENVIRONMENT settings) ;;
  logger LvlInfo ("🔧 Debug mode: " ++ bool_text (DEBUG settings)).

Definition shutdown_event : M unit :=
  logger LvlInfo "🛑 Shutting down Audit Trail System..." ;;
  close_db_connections ;;
  logger LvlInfo "✅ Shutdown complete".

Section Process.
Context `{EnvCoercion} `{EngineLibrary}.

(** What happens from the start of the process to the end of the
    startup hook: [main.py] imports [app.core.config], whose body runs
    [settings = get_settings()], then the database module, whose body
    creates the engine; the application is assembled and the server
    runs the startup hook. *)
Definition import_config : M settings_object := get_settings.

Definition import_database (settings : Settings) : M unit :=
  create_engine settings.

Definition start_process : M unit :=
  settings ← import_config;
  import_database (settings_value settings) ;;
  startup_event (settings_value settings).

End Process.

(** * What the statements speak of *)

(** ** Traces *)

(** What one call of [engine.dispose()] closes. *)
Definition closing_events (conns : list nat) : list event :=
  flat_map (fun c => [ConnectionClose c;
                      Log LvlDebug "🔌 Database connection closed"]) conns.

(** The warning [validate_config] prints between its two checks. *)
Definition production_warning (settings : Settings) : list event :=
  if is_production settings && DEBUG settings
  then [Print "⚠️  WARNING: DEBUG=True in production is a security risk!"]
  else [].

(** ** Settings read from an environment *)

Section Expectations.
Context `{EnvCoercion}.

(** The variables whose text must coerce to [int]. *)
Definition int_variables : list string :=
  ["DB_POOL_SIZE"; "DB_MAX_OVERFLOW"; "DB_POOL_TIMEOUT";
   "ACCESS_TOKEN_EXPIRE_MINUTES"; "BCRYPT_ROUNDS"; "REDIS_TTL";
   "RATE_LIMIT_PER_MINUTE"; "AUDIT_LOG_RETENTION_DAYS";
   "MAX_AUDIT_LOGS_PER_REQUEST"; "MAX_TASKS_PER_DAY";
   "MAX_TASK_TITLE_LENGTH"; "MAX_TASK_DESCRIPTION_LENGTH"].

(** A valid environment: the two variables without default are set and
    every typed variable that is set has a text of its type. *)
Definition valid_environment (env : environ) : Prop :=
  is_Some (env !! "DATABASE_URL") /\
  is_Some (env !! "SECRET_KEY") /\
  (forall name raw, In name int_variables -> env !! name = Some raw ->
                    is_Some (parse_int raw)) /\
  (forall raw, env !! "DEBUG" = Some raw -> is_Some (parse_bool raw)) /\
  (forall raw, env !! "CORS_ORIGINS" = Some raw -> is_Some (parse_str_list raw)).

(** A field holds what the environment supplies, or else its default. *)
Definition holds_str (env : environ) (name default value : string) : Prop :=
  match env !! name with
  | Some raw => value = raw
  | None => value = default
  end.

Definition holds_required (env : environ) (name value : string) : Prop :=
  env !! name = Some value.

Definition holds_int (env : environ) (name : string) (default value : Z)
  : Prop :=
  match env !! name with
  | Some raw => parse_int raw = Some value
  | None => value = default
  end.

Definition holds_bool (env : environ) (name : string) (default value : bool)
  : Prop :=
  match env !! name with
  | Some raw => parse_bool raw = Some value
  | None => value = default
  end.

Definition holds_list (env : environ) (name : string)
           (default value : list string) : Prop :=
  match env !! name with
  | Some raw => parse_str_list raw = Some value
  | None => value = default
  end.

(** Every field of [cfg] is the value the environment supplies for it,
    or the default declared in the class body. *)
Definition fields_from_environment (env : environ) (cfg : Settings) : Prop :=
  holds_str env "APP_NAME" "Audit Trail System" (APP_NAME cfg) /\
  holds_str env "APP_VERSION" "1.0.0" (APP_VERSION cfg) /\
  holds_str env "ENVIRONMENT" "development" (ENVIRONMENT cfg) /\
  holds_bool env "DEBUG" true (DEBUG cfg) /\
  holds_required env "DATABASE_URL" (DATABASE_URL cfg) /\
  holds_int env "DB_POOL_SIZE" 10 (DB_POOL_SIZE cfg) /\
  holds_int env "DB_MAX_OVERFLOW" 20 (DB_MAX_OVERFLOW cfg) /\
  holds_int env "DB_POOL_TIMEOUT" 30 (DB_POOL_TIMEOUT cfg) /\
  holds_required env "SECRET_KEY" (SECRET_KEY cfg) /\
  holds_str env "ALGORITHM" "HS256" (ALGORITHM cfg) /\
  holds_int env "ACCESS_TOKEN_EXPIRE_MINUTES" 1440
            (ACCESS_TOKEN_EXPIRE_MINUTES cfg) /\
  holds_int env "BCRYPT_ROUNDS" 12 (BCRYPT_ROUNDS cfg) /\
  holds_list env "CORS_ORIGINS"
             ["http://localhost:5173"; "http://localhost:3000"]
             (CORS_ORIGINS cfg) /\
  holds_str env "REDIS_URL" "redis://localhost:6379" (REDIS_URL cfg) /\
  holds_int env "REDIS_TTL" 3600 (REDIS_TTL cfg) /\
  holds_int env "RATE_LIMIT_PER_MINUTE" 60 (RATE_LIMIT_PER_MINUTE cfg) /\
  holds_int env "AUDIT_LOG_RETENTION_DAYS" 365
            (AUDIT_LOG_RETENTION_DAYS cfg) /\
  holds_int env "MAX_AUDIT_LOGS_PER_REQUEST" 100
            (MAX_AUDIT_LOGS_PER_REQUEST cfg) /\
  holds_int env "MAX_TASKS_PER_DAY" 50 (MAX_TASKS_PER_DAY cfg) /\
  holds_int env "MAX_TASK_TITLE_LENGTH" 200 (MAX_TASK_TITLE_LENGTH cfg) /\
  holds_int env "MAX_TASK_DESCRIPTION_LENGTH" 5000
            (MAX_TASK_DESCRIPTION_LENGTH cfg).

End Expectations.

(** * Inputs of the examples *)

(** A coercion to run examples with: decimal literals, [true] and
    [false], and the empty JSON list. *)
Fixpoint decimal (s : string) (acc : Z) : option Z :=
  match s with
  | EmptyString => Some acc
  | String c r =>
      let n := N_of_ascii c in
      if (N.leb 48 n && N.leb n 57)%bool
      then decimal r (10 * acc + Z.of_N (n - 48))
      else None
  end.

Definition literal_coercion : EnvCoercion :=
  {| parse_int := fun s => match s with
                           | EmptyString => None
                           | _ => decimal s 0
                           end;
     parse_bool := fun s => if String.eqb s "true" then Some true
                            else if String.eqb s "false" then Some false
                            else None;
     parse_str_list := fun s => if String.eqb s "[]" then Some [] else None |}.

Definition production_env : environ :=
  <["DATABASE_URL" := "postgresql://audit:audit@db:5432/audit_trail_db"]>
  (<["SECRET_KEY" := "0123456789abcdef0123456789abcdef"]>
  (<["DB_POOL_SIZE" := "15"]>
  (<["DEBUG" := "false"]>
  (<["ENVIRONMENT" := "production"]> ∅)))).

Definition production_config : Settings :=
  {| APP_NAME := "Audit Trail System";
    APP_VERSION := "1.0.0";
    ENVIRONMENT := "production";
    DEBUG := false;
    DATABASE_URL := "postgresql://audit:audit@db:5432/audit_trail_db";
    DB_POOL_SIZE := 15;
    DB_MAX_OVERFLOW := 20;
    DB_POOL_TIMEOUT := 30;
    SECRET_KEY := "0123456789abcdef0123456789abcdef";
    ALGORITHM := "HS256";
    ACCESS_TOKEN_EXPIRE_MINUTES := 1440;
    BCRYPT_ROUNDS := 12;
    CORS_ORIGINS := ["http://localhost:5173"; "http://localhost:3000"];
    REDIS_URL := "redis://localhost:6379";
    REDIS_TTL := 3600;
    RATE_LIMIT_PER_MINUTE := 60;
    AUDIT_LOG_RETENTION_DAYS := 365;
    MAX_AUDIT_LOGS_PER_REQUEST := 100;
    MAX_TASKS_PER_DAY := 50;
    MAX_TASK_TITLE_LENGTH := 200;
    MAX_TASK_DESCRIPTION_LENGTH := 5000 |}.

(** A handler that ends the process while it holds the session. *)
Definition exiting_handler (db : Session) : M unit := sys_exit 1.

(** A handler whose query fails. *)
Definition failing_handler (db : Session) : M unit :=
  raise (Exc (SQLAlchemyError "OperationalError") "connection refused").

Definition quiet_world : world := fresh_world ∅ (fun _ => QueryOk) 0.

(** A database that refuses every statement. *)
Definition refusing_db (n : nat) : query_result :=
  QueryError (SQLAlchemyError "OperationalError") "connection refused".

Definition unreachable_world : world := fresh_world ∅ refusing_db 0.

(** A pool with two idle connections, shut down twice. *)
Definition idle_world : world :=
  set_pool {| size := 10; checked_in := [7%nat; 8%nat]; checked_out := [] |}
    quiet_world.

(** A route that runs a failing statement inside the session scope. *)
Definition tasks_request : Request := {| method := "GET"; path := "/tasks" |}.

Definition tasks_handler : M json :=
  get_db (fun db => session_execute db "SELECT * FROM tasks") ;;
  mret (JList []).

Definition tasks_table_missing (n : nat) : query_result :=
  QueryError (SQLAlchemyError "ProgrammingError")
             "relation tasks does not exist".

Definition broken_schema_world : world := fresh_world ∅ tasks_table_missing 1700000000.

Definition production_world : world :=
  fresh_world production_env (fun _ => QueryOk) 1700000000.

(** The environment changed after the first call. *)
Definition edited_world : world :=
  set_environ (<["DB_POOL_SIZE" := "99"]> production_env)
    (snd (@get_settings literal_coercion production_world)).

Definition cached_world : world :=
  snd (@get_settings literal_coercion production_world).

Definition production_object : settings_object :=
  {| settings_id := 0%nat; settings_value := production_config |}.

(** Three misconfigured processes. *)
Definition no_secret_world : world :=
  fresh_world
    (<["DATABASE_URL" := "postgresql://audit:audit@db:5432/audit_trail_db"]> ∅)
    (fun _ => QueryOk) 1700000000.

Definition weak_secret_world : world :=
  fresh_world
    (<["DATABASE_URL" := "postgresql://audit:audit@db:5432/audit_trail_db"]>
     (<["SECRET_KEY" := "changeme"]> ∅))
    (fun _ => QueryOk) 1700000000.

Definition mysql_world : world :=
  fresh_world
    (<["DATABASE_URL" := "mysql://audit:audit@db:3306/audit_trail_db"]>
     (<["SECRET_KEY" := "0123456789abcdef0123456789abcdef"]> ∅))
    (fun _ => QueryOk) 1700000000.

Definition default_config (url key : string) : Settings :=
  {| APP_NAME := "Audit Trail System";
     APP_VERSION := "1.0.0";
     ENVIRONMENT := "development";
     DEBUG := true;
     DATABASE_URL := url;
     DB_POOL_SIZE := 10;
     DB_MAX_OVERFLOW := 20;
     DB_POOL_TIMEOUT := 30;
     SECRET_KEY := key;
     ALGORITHM := "HS256";
     ACCESS_TOKEN_EXPIRE_MINUTES := 1440;
     BCRYPT_ROUNDS := 12;
     CORS_ORIGINS := ["http://localhost:5173"; "http://localhost:3000"];
     REDIS_URL := "redis://localhost:6379";
     REDIS_TTL := 3600;
     RATE_LIMIT_PER_MINUTE := 60;
     AUDIT_LOG_RETENTION_DAYS := 365;
     MAX_AUDIT_LOGS_PER_REQUEST := 100;
     MAX_TASKS_PER_DAY := 50;
     MAX_TASK_TITLE_LENGTH := 200;
     MAX_TASK_DESCRIPTION_LENGTH := 5000 |}.

Definition weak_secret_config : Settings :=
  default_config "postgresql://audit:audit@db:5432/audit_trail_db" "changeme".

(** ** Sessions, callers and counters *)

(** Session identifiers are handed out in increasing order: every open
    session was created before the next one to come. *)
Definition ids_below (w : world) : Prop :=
  Forall (fun s => (s < next_id w)%nat) (open_sessions w).

(** The same computation run [n] times in a row, as a caller that polls
    does; the first exception ends the run. *)
Fixpoint repeat_calls {A : Type} (n : nat) (c : M A) : M unit :=
  match n with
  | O => mret tt
  | S n' => c ;; repeat_calls n' c
  end.

(** Whether the database accepts the next statement. *)
Definition answers_ok (w : world) : bool :=
  match db_oracle w (db_calls w) with
  | QueryOk => true
  | QueryError _ _ => false
  end.

(** How many times connection [c] is closed in a trace. *)
Definition closes_of (c : nat) (t : list event) : nat :=
  length (List.filter (fun ev => match ev with
                                 | ConnectionClose c' => Nat.eqb c' c
                                 | _ => false
                                 end) t).

(** What [validate_config] prints, from the settings alone. *)
Definition validation_prints (settings : Settings) : list event :=
  (if (32 <=? py_len (SECRET_KEY settings)) &&
      is_production settings && DEBUG settings
   then [Print "⚠️  WARNING: DEBUG=True in production is a security risk!"]
   else []) ++
  (if (32 <=? py_len (SECRET_KEY settings)) &&
      startswith (DATABASE_URL settings) "postgresql://"
   then [Print "✅ Configuration validated successfully"]
   else []).

(** A route that uses the session scope and then builds its answer. *)
Definition scoped_route {A : Type} (fn : Session -> M A)
           (k : option A -> M json) : M json :=
  r ← get_db fn; k r.

(** A process in which one probe has already failed, and a unit of work
    that sends one statement. *)
Definition leaky_world : world := snd (check_db_connection unreachable_world).

Definition query_handler (db : Session) : M unit :=
  session_execute db "SELECT count(*) FROM audit_logs".

(** A library in which the PostgreSQL dialect and its driver are the only
    ones installed; the examples give it well-formed URLs only. *)
Definition postgres_only : EngineLibrary :=
  {| create_engine_error := fun url _ _ _ =>
       if (startswith url "postgresql://" ||
           startswith url "postgresql+psycopg2://")%bool
       then None
       else Some (SQLAlchemyError "ArgumentError",
                  "Could not parse or load the database URL") |}.

(** A connection string the library accepts and [validate_config] does
    not: the dialect with its driver spelled out. *)
Definition driver_suffix_world : world :=
  fresh_world
    (<["DATABASE_URL" := "postgresql+psycopg2://audit:audit@db:5432/audit_trail_db"]>
     (<["SECRET_KEY" := "0123456789abcdef0123456789abcdef"]> ∅))
    (fun _ => QueryOk) 1700000000.

(** * Properties *)

(** Unfolding the monad on a goal. *)
Ltac run :=
  repeat (cbv [mbind mret M_bind M_ret raise emit gets modify logger print
                 sys_exit time_time try_except_Exception try_finally yield];
          cbn [fst snd trace os_environ settings_cache next_id open_sessions
                 pool db_oracle db_calls clock set_trace set_environ
                 set_settings_cache set_next_id set_open_sessions set_pool
                 set_db_calls session_id negb]).

(** ** The session scope *)

Lemma filter_out_absent (sid : nat) (l : list nat) :
  ~ In sid (List.filter (fun s => negb (Nat.eqb s sid)) l).
Proof.
  intros Hin. apply filter_In in Hin as [_ Hneq].
  rewrite Nat.eqb_refl in Hneq. discriminate.
Qed.

(** What the generator does when it is resumed, case by case. *)
Lemma get_db_resume_next (db : Session) (w : world) :
  exists w',
    get_db_resume db Next w = (Return tt, w') /\
    trace w' = trace w ++ [SessionClose (session_id db);
                           Log LvlDebug "✅ Database session closed"] /\
    ~ In (session_id db) (open_sessions w').
Proof.
  eexists. split; [reflexivity|]. unfold get_db_resume, session_close. run.
  split; [now rewrite <- app_assoc | apply filter_out_absent].
Qed.

Lemma get_db_resume_throw_exception (db : Session) cls msg (w : world) :
  exists w',
    get_db_resume db (Throw (Exc cls msg)) w = (Raise (Exc cls msg), w') /\
    trace w' = trace w ++ [Log LvlError ("❌ Database error during request: " ++ msg);
                           SessionRollback (session_id db);
                           SessionClose (session_id db);
                           Log LvlDebug "✅ Database session closed"] /\
    ~ In (session_id db) (open_sessions w').
Proof.
  eexists. split; [reflexivity|].
  unfold get_db_resume, session_close, session_rollback. run.
  split; [now rewrite <- !app_assoc | apply filter_out_absent].
Qed.

Lemma get_db_resume_throw_other (db : Session) (e : base_exception) (w : world) :
  is_Exception e = false ->
  exists w',
    get_db_resume db (Throw e) w = (Raise e, w') /\
    trace w' = trace w ++ [SessionClose (session_id db);
                           Log LvlDebug "✅ Database session closed"] /\
    ~ In (session_id db) (open_sessions w').
Proof.
  intros He. destruct e as [cls msg| code |]; [discriminate He| |];
    (eexists; split; [reflexivity|]; unfold session_close; run;
     split; [now rewrite <- app_assoc | apply filter_out_absent]).
Qed.

Lemma get_db_enter_spec (w : world) :
  exists w0,
    get_db_enter w = (Return {| session_id := next_id w |}, w0) /\
    trace w0 = trace w ++ [SessionNew (next_id w)] /\
    open_sessions w0 = open_sessions w ++ [next_id w].
Proof.
  eexists. split; [reflexivity|]. now run.
Qed.

(** C1 (as the code has it). The scope opens one session. When the unit
    of work raises an instance of [Exception], the error is logged, the
    session is rolled back, then closed, once each, and the same exception
    comes out. When it raises something that is not an [Exception], or
    returns, the session is closed once, with no rollback, and the
    exception or the value comes out unchanged. The session is never left
    among the open ones. *)
Theorem get_db_cleanup (A : Type) (fn : Session -> M A) (w : world) :
  let sid := next_id w in
  let db := {| session_id := sid |} in
  exists w0,
    get_db_enter w = (Return db, w0) /\
    exists w2,
      ~ In sid (open_sessions w2) /\
      match fn db w0 with
      | (Return a, w1) =>
          get_db fn w = (Return (Some a), w2) /\
          trace w2 = trace w1 ++ [SessionClose sid;
                                  Log LvlDebug "✅ Database session closed"]
      | (Raise (Exc cls msg), w1) =>
          get_db fn w = (Raise (Exc cls msg), w2) /\
          trace w2 = trace w1 ++ [Log LvlError ("❌ Database error during request: " ++ msg);
                                  SessionRollback sid;
                                  SessionClose sid;
                                  Log LvlDebug "✅ Database session closed"]
      | (Raise e, w1) =>
          get_db fn w = (Raise e, w2) /\
          trace w2 = trace w1 ++ [SessionClose sid;
                                  Log LvlDebug "✅ Database session closed"]
      end.
Proof.
  intros sid db.
  destruct (get_db_enter_spec w) as (w0 & Henter & _).
  exists w0. split; [exact Henter|].
  assert (Hrun : get_db fn w = run_scope db fn w0).
  { unfold get_db. cbv [mbind M_bind]. now rewrite Henter. }
  rewrite Hrun. unfold run_scope.
  destruct (fn db w0) as [[a | e] w1].
  - destruct (get_db_resume_next db w1) as (w2 & Hres & Htr & Hopen).
    exists w2. rewrite Hres. auto.
  - destruct e as [cls msg | code |].
    + destruct (get_db_resume_throw_exception db cls msg w1)
        as (w2 & Hres & Htr & Hopen).
      exists w2. rewrite Hres. auto.
    + destruct (get_db_resume_throw_other db (SystemExit code) w1 eq_refl)
        as (w2 & Hres & Htr & Hopen).
      exists w2. rewrite Hres. auto.
    + destruct (get_db_resume_throw_other db GeneratorExit w1 eq_refl)
        as (w2 & Hres & Htr & Hopen).
      exists w2. rewrite Hres. auto.
Qed.

(** C1 fails as stated: a unit of work that raises [SystemExit] leaves the
    scope with the session closed and no rollback issued. *)
Lemma get_db_no_rollback_on_system_exit :
  fst (get_db exiting_handler quiet_world) = Raise (SystemExit 1) /\
  trace (snd (get_db exiting_handler quiet_world)) =
    [SessionNew 0; SessionClose 0; Log LvlDebug "✅ Database session closed"] /\
  ~ In (SessionRollback 0) (trace (snd (get_db exiting_handler quiet_world))).
Proof.
  split; [reflexivity|]. split; [reflexivity|].
  cbn. intros [Hc | [Hc | [Hc | []]]]; discriminate Hc.
Qed.

(** The same scope around a data-layer failure rolls back before closing. *)
Example get_db_failing_handler :
  get_db failing_handler quiet_world =
    (Raise (Exc (SQLAlchemyError "OperationalError") "connection refused"),
     snd (get_db failing_handler quiet_world)) /\
  trace (snd (get_db failing_handler quiet_world)) =
    [SessionNew 0;
     Log LvlError "❌ Database error during request: connection refused";
     SessionRollback 0; SessionClose 0;
     Log LvlDebug "✅ Database session closed"].
Proof. split; reflexivity. Qed.

(** ** The connectivity probe *)

(** The probe when the statement succeeds: the session is closed. *)
Lemma check_db_connection_ok (w : world) :
  db_oracle w (db_calls w) = QueryOk ->
  exists w',
    check_db_connection w = (Return true, w') /\
    trace w' = trace w ++ [SessionNew (next_id w);
                           SessionExecute (next_id w) "SELECT 1";
                           SessionClose (next_id w);
                           Log LvlInfo "✅ Database connection successful"] /\
    ~ In (next_id w) (open_sessions w') /\
    clock w' = clock w /\ pool w' = pool w.
Proof.
  intros Hq. eexists. split.
  - unfold check_db_connection, SessionLocal, session_execute, session_close.
    run. rewrite Hq. run. reflexivity.
  - run. repeat split; [now rewrite <- !app_assoc | apply filter_out_absent].
Qed.

(** The probe when the statement fails. *)
Lemma check_db_connection_error (w : world) cls msg :
  db_oracle w (db_calls w) = QueryError cls msg ->
  exists w',
    check_db_connection w = (Return false, w') /\
    trace w' = trace w ++ [SessionNew (next_id w);
                           SessionExecute (next_id w) "SELECT 1";
                           Log LvlError ("❌ Database connection failed: " ++ msg)] /\
    open_sessions w' = open_sessions w ++ [next_id w] /\
    clock w' = clock w /\ pool w' = pool w.
Proof.
  intros Hq. eexists. split.
  - unfold check_db_connection, SessionLocal, session_execute, session_close.
    run. rewrite Hq. run. reflexivity.
  - run. repeat split. now rewrite <- !app_assoc.
Qed.

(** C3. Whatever the database answers to the probe's statement, the probe
    returns a boolean: [True] when the statement succeeds, [False] when it
    fails, the failure being the last thing logged, as an error. *)
Theorem check_db_connection_never_raises (w : world) :
  exists (b : bool) (w' : world),
    check_db_connection w = (Return b, w') /\
    match db_oracle w (db_calls w) with
    | QueryOk => b = true
    | QueryError cls msg =>
        b = false /\
        exists before,
          trace w' = before ++ [Log LvlError ("❌ Database connection failed: " ++ msg)]
    end.
Proof.
  destruct (db_oracle w (db_calls w)) as [|cls msg] eqn:Hq.
  - destruct (check_db_connection_ok w Hq) as (w' & Hrun & _).
    exists true, w'. auto.
  - destruct (check_db_connection_error w cls msg Hq) as (w' & Hrun & Htr & _).
    exists false, w'. split; [exact Hrun|]. split; [reflexivity|].
    exists (trace w ++ [SessionNew (next_id w);
                        SessionExecute (next_id w) "SELECT 1"]).
    rewrite Htr, <- app_assoc. reflexivity.
Qed.

(** C9. When the probe's statement raises, the probe returns [False] and
    the session it created is not closed: after the session is created and
    the statement is sent, only the error is logged, and the session stays
    among the open ones, one more than before the probe. *)
Theorem check_db_connection_leaves_session_open (w : world) cls msg :
  db_oracle w (db_calls w) = QueryError cls msg ->
  exists w',
    check_db_connection w = (Return false, w') /\
    trace w' = trace w ++ [SessionNew (next_id w);
                           SessionExecute (next_id w) "SELECT 1";
                           Log LvlError ("❌ Database connection failed: " ++ msg)] /\
    open_sessions w' = open_sessions w ++ [next_id w] /\
    length (open_sessions w') = S (length (open_sessions w)).
Proof.
  intros Hq.
  destruct (check_db_connection_error w cls msg Hq) as (w' & Hrun & Htr & Hopen & _).
  exists w'. repeat split; try assumption.
  rewrite Hopen, length_app. cbn. lia.
Qed.

Lemma check_db_connection_leaves_session_open_witness :
  db_oracle unreachable_world (db_calls unreachable_world) =
    QueryError (SQLAlchemyError "OperationalError") "connection refused" /\
  exists w',
    check_db_connection unreachable_world = (Return false, w') /\
    trace w' = trace unreachable_world ++
                 [SessionNew (next_id unreachable_world);
                  SessionExecute (next_id unreachable_world) "SELECT 1";
                  Log LvlError ("❌ Database connection failed: " ++ "connection refused")] /\
    open_sessions w' = open_sessions unreachable_world ++ [next_id unreachable_world] /\
    length (open_sessions w') = S (length (open_sessions unreachable_world)).
Proof.
  split; [reflexivity|].
  apply (check_db_connection_leaves_session_open unreachable_world
           (SQLAlchemyError "OperationalError") "connection refused").
  reflexivity.
Defined.

(** Two failing probes in a row: two sessions stay open. *)
Example two_failing_probes :
  open_sessions
    (snd (check_db_connection (snd (check_db_connection unreachable_world))))
  = [0%nat; 1%nat].
Proof. reflexivity. Qed.

(** ** Closing the pool *)

Lemma set_trace_same (w : world) : set_trace (trace w) w = w.
Proof. now destruct w. Qed.

Lemma close_connections_spec (conns : list nat) (w : world) :
  close_connections conns w =
    (Return tt, set_trace (trace w ++ closing_events conns) w).
Proof.
  revert w. induction conns as [|c r IH]; intros w.
  - cbn. run. now rewrite app_nil_r, set_trace_same.
  - cbn [close_connections]. unfold receive_close. run. rewrite IH. run.
    now rewrite <- !app_assoc.
Qed.

Lemma close_db_connections_spec (w : world) :
  exists w',
    close_db_connections w = (Return tt, w') /\
    trace w' = trace w ++ [Log LvlInfo "🔌 Closing database connections...";
                           EngineDispose] ++
                          closing_events (checked_in (pool w)) ++
                          [Log LvlInfo "✅ All database connections closed"] /\
    pool w' = {| size := size (pool w); checked_in := []; checked_out := [] |}.
Proof.
  eexists. split.
  - unfold close_db_connections, engine_dispose. run.
    rewrite close_connections_spec. run. reflexivity.
  - run. split; [|reflexivity]. now rewrite <- !app_assoc.
Qed.

(** C6. Two calls of [close_db_connections] in a row both return. The first
    closes each checked-in connection once; the second finds an empty pool,
    closes no connection and leaves the pool as the first call left it. *)
Theorem close_db_connections_twice (w : world) :
  exists w1 w2,
    close_db_connections w = (Return tt, w1) /\
    close_db_connections w1 = (Return tt, w2) /\
    trace w1 = trace w ++ [Log LvlInfo "🔌 Closing database connections...";
                           EngineDispose] ++
                          closing_events (checked_in (pool w)) ++
                          [Log LvlInfo "✅ All database connections closed"] /\
    trace w2 = trace w1 ++ [Log LvlInfo "🔌 Closing database connections...";
                            EngineDispose;
                            Log LvlInfo "✅ All database connections closed"] /\
    pool w2 = pool w1 /\
    checked_in (pool w1) = [].
Proof.
  destruct (close_db_connections_spec w) as (w1 & Hrun1 & Htr1 & Hpool1).
  destruct (close_db_connections_spec w1) as (w2 & Hrun2 & Htr2 & Hpool2).
  exists w1, w2. repeat split; try assumption.
  - rewrite Htr2, Hpool1. reflexivity.
  - rewrite Hpool2, Hpool1. reflexivity.
  - rewrite Hpool1. reflexivity.
Qed.

Example shutdown_twice_trace :
  trace (snd (close_db_connections (snd (close_db_connections idle_world)))) =
    [Log LvlInfo "🔌 Closing database connections..."; EngineDispose;
     ConnectionClose 7; Log LvlDebug "🔌 Database connection closed";
     ConnectionClose 8; Log LvlDebug "🔌 Database connection closed";
     Log LvlInfo "✅ All database connections closed";
     Log LvlInfo "🔌 Closing database connections..."; EngineDispose;
     Log LvlInfo "✅ All database connections closed"].
Proof. reflexivity. Qed.

(** ** The HTTP surface *)

(** C4. [GET /health] answers with status 200 whatever the probe finds.
    The body says healthy and connected exactly when the probe returned
    [True], unhealthy and disconnected exactly when it returned [False],
    and carries the four pool counters, the time and the version of the
    settings. *)
Theorem health_check_response (settings : Settings) (request : Request)
        (w : world) :
  exists (b : bool) (w' : world),
    check_db_connection w = (Return b, w') /\
    serve request (health_check settings) w =
      (Return {| status_code := 200;
                 content :=
                   JDict [("status", JStr (if b then "healthy" else "unhealthy"));
                          ("database", JStr (if b then "connected" else "disconnected"));
                          ("pool_stats",
                           JDict [("pool_size", JNum (size (pool w)));
                                  ("checked_out", JNum (pool_checkedout (pool w)));
                                  ("overflow", JNum (pool_overflow (pool w)));
                                  ("checked_in", JNum (pool_checkedin (pool w)))]);
                          ("timestamp", JNum (clock w));
                          ("version", JStr (APP_VERSION settings))] |}, w') /\
    ((if b then "healthy" else "unhealthy") = "healthy" <-> b = true) /\
    ((if b then "connected" else "disconnected") = "connected" <-> b = true) /\
    ((if b then "healthy" else "unhealthy") = "unhealthy" <-> b = false) /\
    ((if b then "connected" else "disconnected") = "disconnected" <-> b = false).
Proof.
  assert (Hprobe : exists b w', check_db_connection w = (Return b, w') /\
                                clock w' = clock w /\ pool w' = pool w).
  { destruct (db_oracle w (db_calls w)) as [|cls msg] eqn:Hq.
    - destruct (check_db_connection_ok w Hq) as (w' & Hrun & _ & _ & Hc & Hp).
      exists true, w'. auto.
    - destruct (check_db_connection_error w cls msg Hq)
        as (w' & Hrun & _ & _ & Hc & Hp).
      exists false, w'. auto. }
  destruct Hprobe as (b & w' & Hrun & Hclock & Hpool).
  exists b, w'. split; [exact Hrun|]. split.
  - unfold serve, health_check, get_pool_stats. cbv [mbind M_bind].
    rewrite Hrun. run. rewrite Hclock, Hpool. reflexivity.
  - destruct b; repeat split; intros; congruence.
Qed.

(** C5. A request whose handling raises a SQLAlchemy error gets status 500
    and a body made of the fixed texts and the time, the same whatever the
    exception says; the text of the exception goes to the log, at error
    level, with the method and the path of the request. *)
Theorem database_error_response (request : Request) (handler : M json)
        (name msg : string) (w w1 : world) :
  handler w = (Raise (Exc (SQLAlchemyError name) msg), w1) ->
  serve request handler w =
    (Return {| status_code := 500;
               content :=
                 JDict [("error", JStr "Database Error");
                        ("detail", JStr "An error occurred while processing your request. Please try again later.");
                        ("timestamp", JNum (clock w1))] |},
     set_trace (trace w1 ++ [Log LvlError ("❌ Database error on " ++
                                           method request ++ " " ++
                                           path request ++ ": " ++ msg)]) w1).
Proof.
  intros Hraise. unfold serve. rewrite Hraise.
  unfold handle_exception, database_exception_handler. run. reflexivity.
Qed.

Lemma database_error_response_witness :
  tasks_handler broken_schema_world =
    (Raise (Exc (SQLAlchemyError "ProgrammingError") "relation tasks does not exist"),
     snd (tasks_handler broken_schema_world)) /\
  serve tasks_request tasks_handler broken_schema_world =
    (Return {| status_code := 500;
               content :=
                 JDict [("error", JStr "Database Error");
                        ("detail", JStr "An error occurred while processing your request. Please try again later.");
                        ("timestamp", JNum (clock (snd (tasks_handler broken_schema_world))))] |},
     set_trace (trace (snd (tasks_handler broken_schema_world)) ++
                  [Log LvlError ("❌ Database error on " ++
                                 method tasks_request ++ " " ++
                                 path tasks_request ++ ": " ++
                                 "relation tasks does not exist")])
       (snd (tasks_handler broken_schema_world))).
Proof.
  split; [reflexivity|].
  apply (database_error_response tasks_request tasks_handler
           "ProgrammingError" "relation tasks does not exist"
           broken_schema_world (snd (tasks_handler broken_schema_world))).
  reflexivity.
Defined.

(** The whole exchange: what the log holds and what the client gets. *)
Example failing_tasks_request :
  trace (snd (serve tasks_request tasks_handler broken_schema_world)) =
    [SessionNew 0;
     SessionExecute 0 "SELECT * FROM tasks";
     Log LvlError "❌ Database error during request: relation tasks does not exist";
     SessionRollback 0;
     SessionClose 0;
     Log LvlDebug "✅ Database session closed";
     Log LvlError "❌ Database error on GET /tasks: relation tasks does not exist"] /\
  fst (serve tasks_request tasks_handler broken_schema_world) =
    Return {| status_code := 500;
              content :=
                JDict [("error", JStr "Database Error");
                       ("detail", JStr "An error occurred while processing your request. Please try again later.");
                       ("timestamp", JNum 1700000000)] |}.
Proof. split; reflexivity. Qed.

(** ** Loading the settings *)

Section Loading.
Context `{EnvCoercion}.

Lemma str_field_default (env : environ) (name default : string) :
  exists v, str_field env name (Some default) = Some v /\
            holds_str env name default v.
Proof.
  unfold str_field, holds_str. destruct (env !! name) as [raw|]; eauto.
Qed.

Lemma str_field_required (env : environ) (name : string) :
  is_Some (env !! name) ->
  exists v, str_field env name None = Some v /\ holds_required env name v.
Proof.
  unfold str_field, holds_required. intros [raw Hraw]. rewrite Hraw. eauto.
Qed.

Lemma int_field_default (env : environ) (name : string) (default : Z) :
  (forall raw, env !! name = Some raw -> is_Some (parse_int raw)) ->
  exists v, int_field env name (Some default) = Some v /\
            holds_int env name default v.
Proof.
  unfold int_field, holds_int. intros Hok.
  destruct (env !! name) as [raw|]; [|eauto].
  destruct (Hok raw eq_refl) as [v Hv]. eauto.
Qed.

Lemma bool_field_default (env : environ) (name : string) (default : bool) :
  (forall raw, env !! name = Some raw -> is_Some (parse_bool raw)) ->
  exists v, bool_field env name (Some default) = Some v /\
            holds_bool env name default v.
Proof.
  unfold bool_field, holds_bool. intros Hok.
  destruct (env !! name) as [raw|]; [|eauto].
  destruct (Hok raw eq_refl) as [v Hv]. eauto.
Qed.

Lemma list_field_default (env : environ) (name : string)
      (default : list string) :
  (forall raw, env !! name = Some raw -> is_Some (parse_str_list raw)) ->
  exists v, list_field env name (Some default) = Some v /\
            holds_list env name default v.
Proof.
  unfold list_field, holds_list. intros Hok.
  destruct (env !! name) as [raw|]; [|eauto].
  destruct (Hok raw eq_refl) as [v Hv]. eauto.
Qed.

(** C8. From a valid environment [Settings()] returns an instance, and
    each of its fields is the value supplied for it, or the default
    declared in the class when the variable is not set: pool size 10,
    overflow 20, pool timeout 30, environment development, debug true,
    rate limit 60, retention 365, page size 100 and the others. *)
Theorem Settings_new_valid (env : environ) :
  valid_environment env ->
  exists cfg,
    Settings_new env = Return cfg /\ fields_from_environment env cfg.
Proof.
  intros (Hurl & Hkey & Hint & Hbool & Hlist).
  assert (Hi : forall name default, In name int_variables ->
            exists v, int_field env name (Some default) = Some v /\
                      holds_int env name default v).
  { intros name default Hin. apply int_field_default.
    intros raw. now apply Hint. }
  unfold Settings_new, read_fields.
  repeat match goal with
  | |- context [str_field env ?n (Some ?d)] =>
      let v := fresh "v" in let E := fresh "E" in let P := fresh "P" in
      destruct (str_field_default env n d) as (v & E & P); rewrite E
  | |- context [str_field env ?n None] =>
      let v := fresh "v" in let E := fresh "E" in let P := fresh "P" in
      destruct (str_field_required env n ltac:(assumption)) as (v & E & P);
      rewrite E
  | |- context [int_field env ?n (Some ?d)] =>
      let v := fresh "v" in let E := fresh "E" in let P := fresh "P" in
      destruct (Hi n d ltac:(cbn; tauto)) as (v & E & P); rewrite E
  | |- context [bool_field env ?n (Some ?d)] =>
      let v := fresh "v" in let E := fresh "E" in let P := fresh "P" in
      destruct (bool_field_default env n d Hbool) as (v & E & P); rewrite E
  | |- context [list_field env ?n (Some ?d)] =>
      let v := fresh "v" in let E := fresh "E" in let P := fresh "P" in
      destruct (list_field_default env n d Hlist) as (v & E & P); rewrite E
  end.
  cbn. eexists. split; [reflexivity|].
  unfold fields_from_environment. cbn. repeat split; assumption.
Qed.

(** Without [DATABASE_URL] or [SECRET_KEY] no instance is built. *)
Lemma read_fields_missing_required (env : environ) :
  env !! "DATABASE_URL" = None \/ env !! "SECRET_KEY" = None ->
  read_fields env = None.
Proof.
  intros Hmissing. unfold read_fields.
  assert (Hreq : str_field env "DATABASE_URL" None = None \/
                 str_field env "SECRET_KEY" None = None).
  { unfold str_field. destruct Hmissing as [-> | ->]; auto. }
  repeat match goal with
  | |- (?e ≫= _) = None =>
      destruct e; cbn [mbind option_bind]; [|reflexivity]
  end.
  destruct Hreq as [Hreq | Hreq]; discriminate Hreq.
Qed.

Lemma Settings_new_missing_required (env : environ) :
  env !! "DATABASE_URL" = None \/ env !! "SECRET_KEY" = None ->
  Settings_new env = Raise (Exc ValidationError "validation error for Settings").
Proof.
  intros Hmissing. unfold Settings_new.
  now rewrite (read_fields_missing_required env Hmissing).
Qed.

End Loading.

Example production_settings :
  @Settings_new literal_coercion production_env = Return production_config.
Proof. vm_compute. reflexivity. Qed.

Lemma production_env_valid : @valid_environment literal_coercion production_env.
Proof.
  unfold valid_environment. repeat split.
  - exists "postgresql://audit:audit@db:5432/audit_trail_db". reflexivity.
  - exists "0123456789abcdef0123456789abcdef". reflexivity.
  - intros name raw Hin Hraw. cbn in Hin.
    repeat (destruct Hin as [<- | Hin];
            [vm_compute in Hraw; first [discriminate Hraw | idtac]|]);
      [|destruct Hin].
    injection Hraw as <-. exists 15. reflexivity.
  - intros raw Hraw. vm_compute in Hraw. injection Hraw as <-.
    exists false. reflexivity.
  - intros raw Hraw. vm_compute in Hraw. discriminate Hraw.
Defined.

Lemma Settings_new_valid_witness :
  @valid_environment literal_coercion production_env /\
  exists cfg,
    @Settings_new literal_coercion production_env = Return cfg /\
    @fields_from_environment literal_coercion production_env cfg.
Proof.
  split; [exact production_env_valid|].
  apply (@Settings_new_valid literal_coercion production_env).
  exact production_env_valid.
Defined.

(** ** The cached loader *)

Section Cache.
Context `{EnvCoercion}.

(** A call that returns leaves its result in the cell. *)
Lemma get_settings_fills_cache (w w1 : world) (o : settings_object) :
  get_settings w = (Return o, w1) -> settings_cache w1 = Some o.
Proof.
  unfold get_settings, lru_cache, get_settings_body.
  destruct (settings_cache w) as [cached|] eqn:Hcache.
  - intros [= <- <-]. exact Hcache.
  - destruct (Settings_new (os_environ w)) as [cfg|e]; intros [= <- <-].
    reflexivity.
Qed.

(** A call on a filled cell returns its content and touches nothing. *)
Lemma get_settings_hit (w : world) (o : settings_object) :
  settings_cache w = Some o -> get_settings w = (Return o, w).
Proof.
  intros Hcache. unfold get_settings, lru_cache. now rewrite Hcache.
Qed.

(** C7. Once a call of [get_settings] has returned an object, a call in
    any later state of the process that still has that cache returns the
    same object, identity included, and leaves the world as it was: the
    environment is not read, whatever it has become. *)
Theorem get_settings_cached (w w1 : world) (o : settings_object) :
  get_settings w = (Return o, w1) ->
  forall w2, settings_cache w2 = settings_cache w1 ->
             get_settings w2 = (Return o, w2).
Proof.
  intros Hfirst w2 Hsame. apply get_settings_hit.
  rewrite Hsame. exact (get_settings_fills_cache w w1 o Hfirst).
Qed.

(** The first call of a process reads the environment once. *)
Lemma get_settings_miss (w : world) (cfg : Settings) :
  settings_cache w = None ->
  Settings_new (os_environ w) = Return cfg ->
  get_settings w =
    (Return {| settings_id := next_id w; settings_value := cfg |},
     set_settings_cache
       (Some {| settings_id := next_id w; settings_value := cfg |})
       (set_next_id (S (next_id w))
          (set_trace (trace w ++ [ReadEnvironment]) w))).
Proof.
  intros Hcache Hnew. unfold get_settings, lru_cache, get_settings_body.
  now rewrite Hcache, Hnew.
Qed.

Lemma get_settings_raises (w : world) (e : base_exception) :
  settings_cache w = None ->
  Settings_new (os_environ w) = Raise e ->
  get_settings w = (Raise e, set_trace (trace w ++ [ReadEnvironment]) w).
Proof.
  intros Hcache Hnew. unfold get_settings, lru_cache, get_settings_body.
  now rewrite Hcache, Hnew.
Qed.

End Cache.

Lemma get_settings_cached_witness :
  @get_settings literal_coercion production_world =
    (Return production_object, cached_world) /\
  settings_cache edited_world = settings_cache cached_world /\
  @get_settings literal_coercion edited_world =
    (Return production_object, edited_world).
Proof.
  split; [vm_compute; reflexivity|]. split; [reflexivity|].
  apply (@get_settings_cached literal_coercion production_world cached_world
           production_object).
  - vm_compute. reflexivity.
  - reflexivity.
Defined.

(** Two calls build one object; building it again would give another. *)
Example second_instance_differs :
  fst (@get_settings_body literal_coercion cached_world) =
    Return {| settings_id := 1%nat; settings_value := production_config |} /\
  fst (@get_settings literal_coercion cached_world) = Return production_object.
Proof. split; vm_compute; reflexivity. Qed.

(** ** Validation and startup *)

Lemma validate_config_weak_secret (settings : Settings) (w : world) :
  py_len (SECRET_KEY settings) < 32 ->
  validate_config settings w = (Raise (Exc ValueError weak_secret_message), w).
Proof.
  intros Hweak. unfold validate_config.
  apply Z.ltb_lt in Hweak. rewrite Hweak. reflexivity.
Qed.

Lemma validate_config_invalid_url (settings : Settings) (w : world) :
  32 <= py_len (SECRET_KEY settings) ->
  startswith (DATABASE_URL settings) "postgresql://" = false ->
  validate_config settings w =
    (Raise (Exc ValueError (invalid_url_message (DATABASE_URL settings))),
     set_trace (trace w ++ production_warning settings) w).
Proof.
  intros Hkey Hurl. unfold validate_config, production_warning.
  apply Z.ltb_ge in Hkey. rewrite Hkey, Hurl.
  destruct (is_production settings && DEBUG settings); run.
  - reflexivity.
  - now rewrite app_nil_r, set_trace_same.
Qed.

Lemma validate_config_passes (settings : Settings) (w : world) :
  32 <= py_len (SECRET_KEY settings) ->
  startswith (DATABASE_URL settings) "postgresql://" = true ->
  validate_config settings w =
    (Return tt,
     set_trace (trace w ++ production_warning settings ++
                  [Print "✅ Configuration validated successfully"]) w).
Proof.
  intros Hkey Hurl. unfold validate_config, production_warning.
  apply Z.ltb_ge in Hkey. rewrite Hkey, Hurl.
  destruct (is_production settings && DEBUG settings); run.
  - rewrite <- ?app_assoc; reflexivity.
  - reflexivity.
Qed.

(** The startup hook when validation raises: the process exits with
    status 1 and the probe does not run. *)
Lemma startup_event_validation_fails (settings : Settings) (w w1 : world)
      (msg : string) :
  validate_config settings
    (set_trace (trace w ++ [Log LvlInfo "🚀 Starting Audit Trail System..."]) w)
    = (Raise (Exc ValueError msg), w1) ->
  startup_event settings w =
    (Raise (SystemExit 1),
     set_trace (trace w1 ++
                  [Log LvlError ("❌ Configuration validation failed: " ++ msg)]) w1).
Proof.
  intros Hval. unfold startup_event. run. rewrite Hval. reflexivity.
Qed.

Section Startup.
Context `{EnvCoercion} `{EngineLibrary}.

(** A process whose settings cannot be built stops at the import. *)
Lemma start_process_import_fails (w : world) :
  settings_cache w = None ->
  read_fields (os_environ w) = None ->
  import_config w =
    (Raise (Exc ValidationError "validation error for Settings"),
     set_trace (trace w ++ [ReadEnvironment]) w) /\
  start_process w =
    (Raise (Exc ValidationError "validation error for Settings"),
     set_trace (trace w ++ [ReadEnvironment]) w).
Proof.
  intros Hcache Hnone.
  assert (Himport : import_config w =
            (Raise (Exc ValidationError "validation error for Settings"),
             set_trace (trace w ++ [ReadEnvironment]) w)).
  { apply get_settings_raises; [exact Hcache|].
    unfold Settings_new. now rewrite Hnone. }
  split; [exact Himport|].
  unfold start_process. cbv [mbind M_bind]. now rewrite Himport.
Qed.

(** The process up to the startup hook, once the settings are built and
    the library has built the engine. *)
Lemma start_process_imports (w : world) (cfg : Settings) :
  settings_cache w = None ->
  Settings_new (os_environ w) = Return cfg ->
  create_engine_error (DATABASE_URL cfg) (DB_POOL_SIZE cfg)
                      (DB_MAX_OVERFLOW cfg) (DB_POOL_TIMEOUT cfg) = None ->
  exists w0,
    start_process w = startup_event cfg w0 /\
    trace w0 = trace w ++ [ReadEnvironment;
                           CreateEngine (DATABASE_URL cfg) (DB_POOL_SIZE cfg)
                             (DB_MAX_OVERFLOW cfg) (DB_POOL_TIMEOUT cfg)
                             true (DEBUG cfg)] /\
    pool w0 = {| size := DB_POOL_SIZE cfg; checked_in := []; checked_out := [] |} /\
    open_sessions w0 = open_sessions w /\
    db_calls w0 = db_calls w.
Proof.
  intros Hcache Hnew Hengine. eexists. split.
  - unfold start_process, import_config. cbv [mbind M_bind].
    rewrite (get_settings_miss w cfg Hcache Hnew).
    unfold import_database, create_engine. run.
    cbn [settings_value]. rewrite Hengine. run. reflexivity.
  - run. repeat split. rewrite <- ?app_assoc; reflexivity.
Qed.

(** The process when the library refuses to build the engine: it ends in
    the import of the database module. *)
Lemma start_process_engine_fails (w : world) (cfg : Settings)
      (cls : exception_class) (msg : string) :
  settings_cache w = None ->
  Settings_new (os_environ w) = Return cfg ->
  create_engine_error (DATABASE_URL cfg) (DB_POOL_SIZE cfg)
                      (DB_MAX_OVERFLOW cfg) (DB_POOL_TIMEOUT cfg) =
    Some (cls, msg) ->
  exists w',
    start_process w = (Raise (Exc cls msg), w') /\
    trace w' = trace w ++ [ReadEnvironment;
                           CreateEngine (DATABASE_URL cfg) (DB_POOL_SIZE cfg)
                             (DB_MAX_OVERFLOW cfg) (DB_POOL_TIMEOUT cfg)
                             true (DEBUG cfg)] /\
    pool w' = pool w /\
    open_sessions w' = open_sessions w /\
    db_calls w' = db_calls w.
Proof.
  intros Hcache Hnew Hengine. eexists. split.
  - unfold start_process, import_config. cbv [mbind M_bind].
    rewrite (get_settings_miss w cfg Hcache Hnew).
    unfold import_database, create_engine. run.
    cbn [settings_value]. rewrite Hengine. run. reflexivity.
  - run. repeat split. rewrite <- ?app_assoc; reflexivity.
Qed.

(** C10. [settings = get_settings()] runs when the config module is
    imported. In a process that has not loaded its settings yet, if
    [DATABASE_URL] or [SECRET_KEY] is not set, or some variable does not
    have the type of its field, the import raises the validation error
    after reading the environment, and the process ends there: no engine
    is created, the startup hook and [validate_config] never run. When the
    settings can be built, the import builds and caches them. *)
Theorem settings_built_at_import (w : world) :
  settings_cache w = None ->
  (os_environ w !! "DATABASE_URL" = None \/
   os_environ w !! "SECRET_KEY" = None \/
   read_fields (os_environ w) = None ->
   import_config w =
     (Raise (Exc ValidationError "validation error for Settings"),
      set_trace (trace w ++ [ReadEnvironment]) w) /\
   start_process w =
     (Raise (Exc ValidationError "validation error for Settings"),
      set_trace (trace w ++ [ReadEnvironment]) w)) /\
  (forall cfg, Settings_new (os_environ w) = Return cfg ->
     exists o w',
       import_config w = (Return o, w') /\
       settings_value o = cfg /\
       settings_cache w' = Some o /\
       trace w' = trace w ++ [ReadEnvironment]).
Proof.
  intros Hcache. split.
  - intros Hbad. apply start_process_import_fails; [exact Hcache|].
    destruct Hbad as [Hurl | [Hkey | Hnone]]; [| |exact Hnone];
      apply read_fields_missing_required; auto.
  - intros cfg Hnew. unfold import_config.
    rewrite (get_settings_miss w cfg Hcache Hnew).
    do 2 eexists. split; [reflexivity|]. now run.
Qed.

(** C2 (as the code has it). In a process that has not loaded its settings
    yet: when [DATABASE_URL] or [SECRET_KEY] is not set, the import of the
    config module raises the validation error and no engine is created.
    When the settings load, the import of the database module calls
    [create_engine] before anything is validated. If the library refuses
    the connection string, the process ends there with the library's
    error: there is no pool and [validate_config] never runs. If the
    library builds the engine, the pool exists, and then a [SECRET_KEY] of
    fewer than 32 characters, or a [DATABASE_URL] that does not start with
    [postgresql://], makes [validate_config] raise the [ValueError] of that
    check; the startup hook logs it and exits with status 1 before the
    probe: no session is opened and no statement is sent. *)
Theorem configuration_errors_stop_startup (w : world) :
  settings_cache w = None ->
  (os_environ w !! "DATABASE_URL" = None \/ os_environ w !! "SECRET_KEY" = None ->
   start_process w =
     (Raise (Exc ValidationError "validation error for Settings"),
      set_trace (trace w ++ [ReadEnvironment]) w)) /\
  (forall cfg cls msg,
     Settings_new (os_environ w) = Return cfg ->
     create_engine_error (DATABASE_URL cfg) (DB_POOL_SIZE cfg)
                         (DB_MAX_OVERFLOW cfg) (DB_POOL_TIMEOUT cfg) =
       Some (cls, msg) ->
     exists w',
       start_process w = (Raise (Exc cls msg), w') /\
       trace w' = trace w ++
                  [ReadEnvironment;
                   CreateEngine (DATABASE_URL cfg) (DB_POOL_SIZE cfg)
                     (DB_MAX_OVERFLOW cfg) (DB_POOL_TIMEOUT cfg) true (DEBUG cfg)] /\
       pool w' = pool w /\
       open_sessions w' = open_sessions w /\
       db_calls w' = db_calls w) /\
  (forall cfg,
     Settings_new (os_environ w) = Return cfg ->
     create_engine_error (DATABASE_URL cfg) (DB_POOL_SIZE cfg)
                         (DB_MAX_OVERFLOW cfg) (DB_POOL_TIMEOUT cfg) = None ->
     py_len (SECRET_KEY cfg) < 32 ->
     (forall w0, validate_config cfg w0 =
                   (Raise (Exc ValueError weak_secret_message), w0)) /\
     exists w',
       start_process w = (Raise (SystemExit 1), w') /\
       trace w' = trace w ++
                  [ReadEnvironment;
                   CreateEngine (DATABASE_URL cfg) (DB_POOL_SIZE cfg)
                     (DB_MAX_OVERFLOW cfg) (DB_POOL_TIMEOUT cfg) true (DEBUG cfg);
                   Log LvlInfo "🚀 Starting Audit Trail System...";
                   Log LvlError ("❌ Configuration validation failed: " ++
                                 weak_secret_message)] /\
       pool w' = {| size := DB_POOL_SIZE cfg;
                    checked_in := []; checked_out := [] |} /\
       open_sessions w' = open_sessions w /\
       db_calls w' = db_calls w) /\
  (forall cfg,
     Settings_new (os_environ w) = Return cfg ->
     create_engine_error (DATABASE_URL cfg) (DB_POOL_SIZE cfg)
                         (DB_MAX_OVERFLOW cfg) (DB_POOL_TIMEOUT cfg) = None ->
     32 <= py_len (SECRET_KEY cfg) ->
     startswith (DATABASE_URL cfg) "postgresql://" = false ->
     (forall w0, fst (validate_config cfg w0) =
                   Raise (Exc ValueError (invalid_url_message (DATABASE_URL cfg)))) /\
     exists w',
       start_process w = (Raise (SystemExit 1), w') /\
       trace w' = trace w ++
                  [ReadEnvironment;
                   CreateEngine (DATABASE_URL cfg) (DB_POOL_SIZE cfg)
                     (DB_MAX_OVERFLOW cfg) (DB_POOL_TIMEOUT cfg) true (DEBUG cfg);
                   Log LvlInfo "🚀 Starting Audit Trail System..."] ++
                  production_warning cfg ++
                  [Log LvlError ("❌ Configuration validation failed: " ++
                                 invalid_url_message (DATABASE_URL cfg))] /\
       pool w' = {| size := DB_POOL_SIZE cfg;
                    checked_in := []; checked_out := [] |} /\
       open_sessions w' = open_sessions w /\
       db_calls w' = db_calls w).
Proof.
  intros Hcache. split; [|split; [|split]].
  - intros Hmissing.
    apply start_process_import_fails; [exact Hcache|].
    now apply read_fields_missing_required.
  - intros cfg cls msg Hnew Hengine.
    now apply start_process_engine_fails.
  - intros cfg Hnew Hengine Hweak.
    split; [intros w0; now apply validate_config_weak_secret|].
    destruct (start_process_imports w cfg Hcache Hnew Hengine)
      as (w0 & Hrun & Htr & Hpool & Hopen & Hcalls).
    eexists. split.
    + rewrite Hrun. eapply startup_event_validation_fails.
      now apply validate_config_weak_secret.
    + run. rewrite Htr, Hpool, Hopen, Hcalls. repeat split.
      rewrite <- ?app_assoc; reflexivity.
  - intros cfg Hnew Hengine Hkey Hurl.
    split; [intros w0; now rewrite validate_config_invalid_url|].
    destruct (start_process_imports w cfg Hcache Hnew Hengine)
      as (w0 & Hrun & Htr & Hpool & Hopen & Hcalls).
    eexists. split.
    + rewrite Hrun. eapply startup_event_validation_fails.
      now apply validate_config_invalid_url.
    + run. rewrite Htr, Hpool, Hopen, Hcalls. repeat split.
      rewrite <- ?app_assoc; reflexivity.
Qed.

End Startup.

Lemma settings_built_at_import_witness :
  settings_cache no_secret_world = None /\
  os_environ no_secret_world !! "SECRET_KEY" = None /\
  @import_config literal_coercion no_secret_world =
    (Raise (Exc ValidationError "validation error for Settings"),
     set_trace (trace no_secret_world ++ [ReadEnvironment]) no_secret_world) /\
  @start_process literal_coercion postgres_only no_secret_world =
    (Raise (Exc ValidationError "validation error for Settings"),
     set_trace (trace no_secret_world ++ [ReadEnvironment]) no_secret_world).
Proof.
  split; [reflexivity|]. split; [reflexivity|].
  apply (@settings_built_at_import literal_coercion postgres_only
           no_secret_world eq_refl).
  right. left. reflexivity.
Defined.

Lemma configuration_errors_stop_startup_witness :
  settings_cache weak_secret_world = None /\
  @Settings_new literal_coercion (os_environ weak_secret_world) =
    Return weak_secret_config /\
  @create_engine_error postgres_only
    (DATABASE_URL weak_secret_config) (DB_POOL_SIZE weak_secret_config)
    (DB_MAX_OVERFLOW weak_secret_config) (DB_POOL_TIMEOUT weak_secret_config) =
    None /\
  py_len (SECRET_KEY weak_secret_config) < 32 /\
  exists w',
    @start_process literal_coercion postgres_only weak_secret_world =
      (Raise (SystemExit 1), w') /\
    trace w' = trace weak_secret_world ++
               [ReadEnvironment;
                CreateEngine (DATABASE_URL weak_secret_config)
                  (DB_POOL_SIZE weak_secret_config)
                  (DB_MAX_OVERFLOW weak_secret_config)
                  (DB_POOL_TIMEOUT weak_secret_config) true
                  (DEBUG weak_secret_config);
                Log LvlInfo "🚀 Starting Audit Trail System...";
                Log LvlError ("❌ Configuration validation failed: " ++
                              weak_secret_message)] /\
    pool w' = {| size := DB_POOL_SIZE weak_secret_config;
                 checked_in := []; checked_out := [] |} /\
    open_sessions w' = open_sessions weak_secret_world /\
    db_calls w' = db_calls weak_secret_world.
Proof.
  split; [reflexivity|]. split; [vm_compute; reflexivity|].
  split; [vm_compute; reflexivity|]. split; [vm_compute; reflexivity|].
  apply (@configuration_errors_stop_startup literal_coercion postgres_only
           weak_secret_world eq_refl).
  - vm_compute. reflexivity.
  - vm_compute. reflexivity.
  - vm_compute. reflexivity.
Defined.

(** C2 fails as stated: with a weak [SECRET_KEY] the engine and its pool
    exist before [validate_config] rejects the key. *)
Lemma engine_created_before_validation :
  fst (@start_process literal_coercion postgres_only weak_secret_world) =
    Raise (SystemExit 1) /\
  trace (snd (@start_process literal_coercion postgres_only weak_secret_world)) =
    [ReadEnvironment;
     CreateEngine "postgresql://audit:audit@db:5432/audit_trail_db" 10 20 30
                  true true;
     Log LvlInfo "🚀 Starting Audit Trail System...";
     Log LvlError "❌ Configuration validation failed: SECRET_KEY must be at least 32 characters. Generate one with: openssl rand -hex 32"] /\
  pool (snd (@start_process literal_coercion postgres_only weak_secret_world)) =
    {| size := 10; checked_in := []; checked_out := [] |}.
Proof. repeat split; vm_compute; reflexivity. Qed.

(** The connection string of another database, its driver not installed:
    the process ends in [create_engine], before the startup hook. *)
Example mysql_url_stops_at_import :
  fst (@start_process literal_coercion postgres_only mysql_world) =
    Raise (Exc (SQLAlchemyError "ArgumentError")
               "Could not parse or load the database URL") /\
  trace (snd (@start_process literal_coercion postgres_only mysql_world)) =
    [ReadEnvironment;
     CreateEngine "mysql://audit:audit@db:3306/audit_trail_db" 10 20 30 true true].
Proof. repeat split; vm_compute; reflexivity. Qed.

(** A connection string the library accepts and [validate_config]
    refuses. *)
Example driver_suffix_url_rejected :
  fst (@start_process literal_coercion postgres_only driver_suffix_world) =
    Raise (SystemExit 1) /\
  trace (snd (@start_process literal_coercion postgres_only driver_suffix_world)) =
    [ReadEnvironment;
     CreateEngine "postgresql+psycopg2://audit:audit@db:5432/audit_trail_db"
                  10 20 30 true true;
     Log LvlInfo "🚀 Starting Audit Trail System...";
     Log LvlError "❌ Configuration validation failed: DATABASE_URL must start with postgresql:// Got: postgresql+psycopg2:..."].
Proof. repeat split; vm_compute; reflexivity. Qed.

(** A well configured process reaches the end of the startup hook. *)
Example production_startup :
  fst (@start_process literal_coercion postgres_only production_world) = Return tt /\
  trace (snd (@start_process literal_coercion postgres_only production_world)) =
    [ReadEnvironment;
     CreateEngine "postgresql://audit:audit@db:5432/audit_trail_db" 15 20 30
                  true false;
     Log LvlInfo "🚀 Starting Audit Trail System...";
     Print "✅ Configuration validated successfully";
     SessionNew 1;
     SessionExecute 1 "SELECT 1";
     SessionClose 1;
     Log LvlInfo "✅ Database connection successful";
     Log LvlInfo "📊 Database pool: {'pool_size': 15, 'checked_out': 0, 'overflow': -15, 'checked_in': 0}";
     Log LvlInfo "✅ Application started successfully";
     Log LvlInfo "🌍 Environment: production";
     Log LvlInfo "🔧 Debug mode: False"].
Proof. repeat split; vm_compute; reflexivity. Qed.

(** [len] counts characters, not bytes: 31 characters in 33 bytes. *)
Example py_len_counts_code_points :
  py_len "0123456789abcdef0123456789abcd€" = 31 /\
  String.length "0123456789abcdef0123456789abcd€" = 33%nat.
Proof. split; reflexivity. Qed.

(** * Further properties of the three modules *)

(** ** [validate_config] *)

Lemma weak_secret_is_not_url_message (url : string) :
  weak_secret_message <> invalid_url_message url.
Proof. unfold weak_secret_message, invalid_url_message. cbn. discriminate. Qed.

(** X1. [validate_config] returns exactly when [SECRET_KEY] has at least 32
    characters and [DATABASE_URL] starts with [postgresql://]; otherwise it
    raises a [ValueError]; either way it changes nothing but what is
    printed. *)
Theorem validate_config_accepts_iff (settings : Settings) (w : world) :
  (fst (validate_config settings w) = Return tt <->
   32 <= py_len (SECRET_KEY settings) /\
   startswith (DATABASE_URL settings) "postgresql://" = true) /\
  (forall e, fst (validate_config settings w) = Raise e ->
             exists msg, e = Exc ValueError msg) /\
  set_trace (trace w) (snd (validate_config settings w)) = w.
Proof.
  destruct (Z.lt_ge_cases (py_len (SECRET_KEY settings)) 32) as [Hweak | Hkey].
  - rewrite (validate_config_weak_secret settings w Hweak). cbn [fst snd].
    split; [split|split].
    + discriminate.
    + intros [Hkey _]. lia.
    + intros e [= <-]. eauto.
    + apply set_trace_same.
  - destruct (startswith (DATABASE_URL settings) "postgresql://") eqn:Hurl.
    + rewrite (validate_config_passes settings w Hkey Hurl). cbn [fst snd].
      split; [split|split].
      * auto.
      * reflexivity.
      * discriminate.
      * now destruct w.
    + rewrite (validate_config_invalid_url settings w Hkey Hurl). cbn [fst snd].
      split; [split|split].
      * discriminate.
      * intros [_ Habs]. discriminate Habs.
      * intros e [= <-]. eauto.
      * now destruct w.
Qed.

(** X2. The key is checked first: the error about [SECRET_KEY] is raised
    exactly when the key has fewer than 32 characters, whatever the
    connection string; the error about [DATABASE_URL] exactly when the key
    passes and the connection string has the wrong prefix. *)
Theorem validate_config_error_order (settings : Settings) (w : world) :
  (fst (validate_config settings w) = Raise (Exc ValueError weak_secret_message) <->
   py_len (SECRET_KEY settings) < 32) /\
  (fst (validate_config settings w) =
     Raise (Exc ValueError (invalid_url_message (DATABASE_URL settings))) <->
   32 <= py_len (SECRET_KEY settings) /\
   startswith (DATABASE_URL settings) "postgresql://" = false).
Proof.
  destruct (Z.lt_ge_cases (py_len (SECRET_KEY settings)) 32) as [Hweak | Hkey].
  - rewrite (validate_config_weak_secret settings w Hweak). cbn [fst].
    split; split.
    + intros _. exact Hweak.
    + reflexivity.
    + intros Heq. exfalso.
      apply (weak_secret_is_not_url_message (DATABASE_URL settings)). congruence.
    + intros [Hkey _]. lia.
  - destruct (startswith (DATABASE_URL settings) "postgresql://") eqn:Hurl.
    + rewrite (validate_config_passes settings w Hkey Hurl). cbn [fst].
      split; split.
      * discriminate.
      * lia.
      * discriminate.
      * intros [_ Habs]. discriminate Habs.
    + rewrite (validate_config_invalid_url settings w Hkey Hurl). cbn [fst].
      split; split.
      * intros Heq. exfalso.
        apply (weak_secret_is_not_url_message (DATABASE_URL settings)). congruence.
      * lia.
      * auto.
      * reflexivity.
Qed.

(** X3. The warning about [DEBUG] in production is printed exactly when
    the key passes, the environment is [production] and [DEBUG] is on; it
    never changes the outcome, which depends on the key and the connection
    string only. *)
Theorem production_warning_is_not_fatal (settings : Settings) (w : world) :
  trace (snd (validate_config settings w)) = trace w ++ validation_prints settings /\
  forall settings' w',
    SECRET_KEY settings' = SECRET_KEY settings ->
    DATABASE_URL settings' = DATABASE_URL settings ->
    fst (validate_config settings' w') = fst (validate_config settings w).
Proof.
  assert (Hout : forall s u,
            fst (validate_config s u) =
              if py_len (SECRET_KEY s) <? 32
              then Raise (Exc ValueError weak_secret_message)
              else if startswith (DATABASE_URL s) "postgresql://"
                   then Return tt
                   else Raise (Exc ValueError (invalid_url_message (DATABASE_URL s)))).
  { intros s u.
    destruct (Z.lt_ge_cases (py_len (SECRET_KEY s)) 32) as [Hweak | Hkey].
    - rewrite (validate_config_weak_secret s u Hweak).
      apply Z.ltb_lt in Hweak. now rewrite Hweak.
    - destruct (startswith (DATABASE_URL s) "postgresql://") eqn:Hurl.
      + rewrite (validate_config_passes s u Hkey Hurl).
        apply Z.ltb_ge in Hkey. now rewrite Hkey.
      + rewrite (validate_config_invalid_url s u Hkey Hurl).
        apply Z.ltb_ge in Hkey. now rewrite Hkey. }
  split.
  - unfold validation_prints.
    destruct (Z.lt_ge_cases (py_len (SECRET_KEY settings)) 32) as [Hweak | Hkey].
    + rewrite (validate_config_weak_secret settings w Hweak).
      assert (Hleb : (32 <=? py_len (SECRET_KEY settings)) = false)
        by (apply Z.leb_gt; exact Hweak).
      rewrite Hleb. cbn. now rewrite app_nil_r.
    + assert (Hleb : (32 <=? py_len (SECRET_KEY settings)) = true)
        by (apply Z.leb_le; exact Hkey).
      rewrite Hleb. cbn [andb].
      destruct (startswith (DATABASE_URL settings) "postgresql://") eqn:Hurl.
      * rewrite (validate_config_passes settings w Hkey Hurl).
        unfold production_warning. reflexivity.
      * rewrite (validate_config_invalid_url settings w Hkey Hurl).
        unfold production_warning. cbn [snd trace set_trace].
        now rewrite app_nil_r.
  - intros settings' w' Hk Hu. rewrite !Hout, Hk, Hu. reflexivity.
Qed.

Lemma py_len_nonneg (s : string) : 0 <= py_len s.
Proof.
  induction s as [|c r IH]; cbn [py_len]; [lia|].
  destruct (is_lead_byte c); lia.
Qed.

Lemma py_len_py_take (n : nat) (s : string) :
  py_len (py_take n s) = Z.min (Z.of_nat n) (py_len s).
Proof.
  revert n. induction s as [|c r IH]; intros n; cbn [py_take py_len].
  - lia.
  - pose proof (py_len_nonneg r) as Hr.
    destruct (is_lead_byte c) eqn:Hc.
    + destruct n as [|n']; cbn [py_len].
      * lia.
      * rewrite Hc, IH. lia.
    + cbn [py_len]. rewrite Hc, IH. lia.
Qed.

Lemma py_take_prefix (n : nat) (s : string) :
  String.prefix (py_take n s) s = true.
Proof.
  revert n. induction s as [|c r IH]; intros n; cbn [py_take].
  - reflexivity.
  - destruct (is_lead_byte c).
    + destruct n as [|n']; [reflexivity|].
      cbn [String.prefix]. destruct (ascii_dec c c) as [_|Hne]; [apply IH|].
      now contradiction Hne.
    + cbn [String.prefix]. destruct (ascii_dec c c) as [_|Hne]; [apply IH|].
      now contradiction Hne.
Qed.

(** X4. The error about [DATABASE_URL] quotes the start of the connection
    string only: a prefix of it of 20 characters, or all of it when it is
    shorter, between fixed words. *)
Theorem invalid_url_message_quotes_a_prefix (url : string) :
  exists shown : string,
    invalid_url_message url =
      ("DATABASE_URL must start with postgresql:// Got: " ++ shown ++ "...")%string /\
    String.prefix shown url = true /\
    py_len shown = Z.min 20 (py_len url).
Proof.
  exists (py_take 20 url). split; [reflexivity|]. split.
  - apply py_take_prefix.
  - apply (py_len_py_take 20 url).
Qed.

(** ** [Settings] *)

Section LoadingConverse.
Context `{EnvCoercion}.

Lemma str_field_holds (env : environ) (name default v : string) :
  str_field env name (Some default) = Some v -> holds_str env name default v.
Proof.
  unfold str_field, holds_str. destruct (env !! name); now intros [= ->].
Qed.

Lemma str_field_set (env : environ) (name v : string) :
  str_field env name None = Some v -> env !! name = Some v.
Proof. unfold str_field. destruct (env !! name); [auto | discriminate]. Qed.

Lemma int_field_holds (env : environ) (name : string) (default v : Z) :
  int_field env name (Some default) = Some v ->
  holds_int env name default v /\
  (forall raw, env !! name = Some raw -> is_Some (parse_int raw)).
Proof.
  unfold int_field, holds_int. destruct (env !! name) as [raw|].
  - intros Hv. split; [exact Hv|]. intros raw' [= <-]. eauto.
  - intros [= ->]. split; [reflexivity | discriminate].
Qed.

Lemma bool_field_holds (env : environ) (name : string) (default v : bool) :
  bool_field env name (Some default) = Some v ->
  holds_bool env name default v /\
  (forall raw, env !! name = Some raw -> is_Some (parse_bool raw)).
Proof.
  unfold bool_field, holds_bool. destruct (env !! name) as [raw|].
  - intros Hv. split; [exact Hv|]. intros raw' [= <-]. eauto.
  - intros [= ->]. split; [reflexivity | discriminate].
Qed.

Lemma list_field_holds (env : environ) (name : string)
      (default v : list string) :
  list_field env name (Some default) = Some v ->
  holds_list env name default v /\
  (forall raw, env !! name = Some raw -> is_Some (parse_str_list raw)).
Proof.
  unfold list_field, holds_list. destruct (env !! name) as [raw|].
  - intros Hv. split; [exact Hv|]. intros raw' [= <-]. eauto.
  - intros [= ->]. split; [reflexivity | discriminate].
Qed.

(** X5. Whenever [Settings()] returns an instance, the environment was
    valid (both variables without default set, every typed variable that
    is set coercible) and each field is the supplied value or the declared
    default: loading succeeds on valid environments only, and what it
    returns is determined by the environment. *)
Theorem Settings_new_sound (env : environ) (cfg : Settings) :
  Settings_new env = Return cfg ->
  valid_environment env /\ fields_from_environment env cfg.
Proof.
  unfold Settings_new. destruct (read_fields env) as [cfg'|] eqn:Hread;
    [intros [= <-] | discriminate].
  unfold read_fields in Hread.
  repeat match type of Hread with
  | (?e ≫= _) = Some _ =>
      let v := fresh "v" in let E := fresh "E" in
      destruct e as [v|] eqn:E; cbn [mbind option_bind] in Hread;
      [|discriminate Hread]
  end.
  injection Hread as <-.
  repeat match goal with
  | E : str_field env _ (Some _) = Some _ |- _ => apply str_field_holds in E
  | E : str_field env _ None = Some _ |- _ => apply str_field_set in E
  | E : int_field env _ (Some _) = Some _ |- _ =>
      apply int_field_holds in E; destruct E
  | E : bool_field env _ (Some _) = Some _ |- _ =>
      apply bool_field_holds in E; destruct E
  | E : list_field env _ (Some _) = Some _ |- _ =>
      apply list_field_holds in E; destruct E
  end.
  split.
  - unfold valid_environment. split; [eauto|]. split; [eauto|].
    split; [|split; assumption].
    intros name raw Hin. cbn in Hin.
    repeat (destruct Hin as [<- | Hin]; [auto|]). destruct Hin.
  - unfold fields_from_environment, holds_required. cbn.
    repeat split; assumption.
Qed.

End LoadingConverse.

Lemma Settings_new_sound_witness :
  @Settings_new literal_coercion production_env = Return production_config /\
  @valid_environment literal_coercion production_env /\
  @fields_from_environment literal_coercion production_env production_config.
Proof.
  split; [vm_compute; reflexivity|].
  apply (@Settings_new_sound literal_coercion production_env production_config).
  vm_compute. reflexivity.
Defined.

Section EnvironmentTag.
Context `{EnvCoercion}.

Lemma read_fields_environment (env : environ) (cfg : Settings) :
  read_fields env = Some cfg ->
  holds_str env "ENVIRONMENT" "development" (ENVIRONMENT cfg).
Proof.
  intros Hread. unfold read_fields in Hread.
  repeat match type of Hread with
  | (?e ≫= _) = Some _ =>
      let v := fresh "v" in let E := fresh "E" in
      destruct e as [v|] eqn:E; cbn [mbind option_bind] in Hread;
      [|discriminate Hread]
  end.
  injection Hread as <-. cbn. now apply str_field_holds.
Qed.

(** X6. A configuration is never both production and development, and one
    loaded from an environment that does not set [ENVIRONMENT] is
    development, not production. *)
Theorem environment_defaults_to_development (env : environ) (cfg : Settings) :
  Settings_new env = Return cfg ->
  env !! "ENVIRONMENT" = None ->
  is_development cfg = true /\ is_production cfg = false /\
  forall settings, is_production settings && is_development settings = false.
Proof.
  intros Hnew Hunset.
  assert (Henv : ENVIRONMENT cfg = "development").
  { unfold Settings_new in Hnew.
    destruct (read_fields env) as [cfg'|] eqn:Hread; [|discriminate Hnew].
    injection Hnew as ->.
    pose proof (read_fields_environment env cfg Hread) as Hholds.
    unfold holds_str in Hholds. now rewrite Hunset in Hholds. }
  unfold is_development, is_production. rewrite Henv.
  split; [reflexivity|]. split; [reflexivity|].
  intros settings.
  destruct (String.eqb_spec (ENVIRONMENT settings) "production") as [-> | _];
    reflexivity.
Qed.

End EnvironmentTag.

Lemma environment_defaults_to_development_witness :
  @Settings_new literal_coercion (os_environ weak_secret_world) =
    Return weak_secret_config /\
  os_environ weak_secret_world !! "ENVIRONMENT" = None /\
  is_development weak_secret_config = true /\
  is_production weak_secret_config = false /\
  forall settings, is_production settings && is_development settings = false.
Proof.
  split; [vm_compute; reflexivity|]. split; [reflexivity|].
  apply (@environment_defaults_to_development literal_coercion
           (os_environ weak_secret_world) weak_secret_config).
  - vm_compute. reflexivity.
  - reflexivity.
Defined.

(** ** Sessions *)

Lemma filter_keeps_below (sid : nat) (l : list nat) :
  Forall (fun s => (s < sid)%nat) l ->
  List.filter (fun s => negb (Nat.eqb s sid)) l = l.
Proof.
  induction 1 as [|s l Hs _ IH]; [reflexivity|]. cbn.
  destruct (Nat.eqb_spec s sid) as [-> | _]; [lia|]. cbn. now rewrite IH.
Qed.

Lemma filter_drops_last (sid : nat) (l : list nat) :
  Forall (fun s => (s < sid)%nat) l ->
  List.filter (fun s => negb (Nat.eqb s sid)) (l ++ [sid]) = l.
Proof.
  intros Hl. rewrite List.filter_app, (filter_keeps_below sid l Hl). cbn.
  rewrite Nat.eqb_refl. cbn. apply app_nil_r.
Qed.

Lemma Forall_filter_weaken (P : nat -> Prop) (f : nat -> bool) (l : list nat) :
  Forall P l -> Forall P (List.filter f l).
Proof.
  induction 1 as [|s l Hs _ IH]; cbn; [constructor|].
  destruct (f s); [constructor; assumption | assumption].
Qed.

(** The sessions left open and the next identifier after a resumption. *)
Lemma get_db_resume_sessions (db : Session) (r : resumption) (w : world) :
  open_sessions (snd (get_db_resume db r w)) =
    List.filter (fun s => negb (Nat.eqb s (session_id db))) (open_sessions w) /\
  next_id (snd (get_db_resume db r w)) = next_id w.
Proof.
  unfold get_db_resume, session_close, session_rollback.
  destruct r as [|[cls msg | code |]]; run; split; reflexivity.
Qed.

Lemma run_scope_sessions (A : Type) (db : Session) (fn : Session -> M A)
      (w : world) :
  open_sessions (snd (run_scope db fn w)) =
    List.filter (fun s => negb (Nat.eqb s (session_id db)))
                (open_sessions (snd (fn db w))) /\
  next_id (snd (run_scope db fn w)) = next_id (snd (fn db w)).
Proof.
  unfold run_scope. destruct (fn db w) as [[a | e] w1]; cbn [snd].
  - pose proof (get_db_resume_sessions db Next w1) as Hres.
    destruct (get_db_resume db Next w1) as [[u | e'] w2]; exact Hres.
  - pose proof (get_db_resume_sessions db (Throw e) w1) as Hres.
    destruct (get_db_resume db (Throw e) w1) as [[u | e'] w2]; exact Hres.
Qed.

Lemma get_db_unfold (A : Type) (fn : Session -> M A) (w : world) :
  get_db fn w =
    run_scope {| session_id := next_id w |} fn (snd (get_db_enter w)).
Proof. reflexivity. Qed.

(** X7. The scope gives back what it took: when session identifiers are
    in order and the unit of work leaves the set of open sessions as it
    found it, the sessions open after [get_db] are those open before,
    whether the unit of work returned or raised. *)
Theorem get_db_restores_open_sessions (A : Type) (fn : Session -> M A)
        (w : world) :
  ids_below w ->
  open_sessions (snd (fn {| session_id := next_id w |} (snd (get_db_enter w)))) =
    open_sessions (snd (get_db_enter w)) ->
  open_sessions (snd (get_db fn w)) = open_sessions w.
Proof.
  intros Hbelow Hkeeps. rewrite get_db_unfold.
  destruct (run_scope_sessions A {| session_id := next_id w |} fn
              (snd (get_db_enter w))) as [Hopen _].
  rewrite Hopen, Hkeeps. cbn [session_id].
  destruct (get_db_enter_spec w) as (w0 & Henter & _ & Hopen0).
  rewrite Henter. cbn [snd]. rewrite Hopen0.
  now apply filter_drops_last.
Qed.

Lemma get_db_restores_open_sessions_witness :
  ids_below leaky_world /\
  open_sessions (snd (query_handler {| session_id := next_id leaky_world |}
                        (snd (get_db_enter leaky_world)))) =
    open_sessions (snd (get_db_enter leaky_world)) /\
  open_sessions (snd (get_db query_handler leaky_world)) =
    open_sessions leaky_world.
Proof.
  assert (Hbelow : ids_below leaky_world).
  { unfold ids_below. cbn. repeat constructor. }
  split; [exact Hbelow|]. split; [reflexivity|].
  apply (get_db_restores_open_sessions unit query_handler leaky_world).
  - exact Hbelow.
  - reflexivity.
Defined.

(** The probe, whatever the database answers. *)
Lemma check_db_connection_effect (w : world) :
  fst (check_db_connection w) = Return (answers_ok w) /\
  next_id (snd (check_db_connection w)) = S (next_id w) /\
  db_oracle (snd (check_db_connection w)) = db_oracle w /\
  db_calls (snd (check_db_connection w)) = S (db_calls w) /\
  clock (snd (check_db_connection w)) = clock w /\
  pool (snd (check_db_connection w)) = pool w /\
  settings_cache (snd (check_db_connection w)) = settings_cache w /\
  open_sessions (snd (check_db_connection w)) =
    if answers_ok w
    then List.filter (fun s => negb (Nat.eqb s (next_id w)))
                     (open_sessions w ++ [next_id w])
    else open_sessions w ++ [next_id w].
Proof.
  unfold check_db_connection, SessionLocal, session_execute, session_close,
    answers_ok.
  run. destruct (db_oracle w (db_calls w)) as [|cls msg]; run;
    repeat split; reflexivity.
Qed.

(** X9. A probe that succeeds leaves no trace in the set of open sessions:
    when identifiers are in order and the database accepts the statement,
    the probe returns [True] and the open sessions are those of before. *)
Theorem check_db_connection_success_releases (w : world) :
  ids_below w ->
  db_oracle w (db_calls w) = QueryOk ->
  fst (check_db_connection w) = Return true /\
  open_sessions (snd (check_db_connection w)) = open_sessions w.
Proof.
  intros Hbelow Hok.
  destruct (check_db_connection_effect w)
    as (Hres & _ & _ & _ & _ & _ & _ & Hopen).
  assert (Hans : answers_ok w = true) by (unfold answers_ok; now rewrite Hok).
  rewrite Hres, Hopen, Hans. split; [reflexivity|].
  now apply filter_drops_last.
Qed.

Lemma check_db_connection_success_releases_witness :
  ids_below idle_world /\
  db_oracle idle_world (db_calls idle_world) = QueryOk /\
  fst (check_db_connection idle_world) = Return true /\
  open_sessions (snd (check_db_connection idle_world)) = open_sessions idle_world.
Proof.
  split; [constructor|]. split; [reflexivity|].
  apply (check_db_connection_success_releases idle_world).
  - constructor.
  - reflexivity.
Defined.

(** ** Polling [/health] *)

(** The health route changes the world as its probe does, and answers. *)
Lemma health_check_world (settings : Settings) (request : Request) (w : world) :
  snd (serve request (health_check settings) w) = snd (check_db_connection w) /\
  exists resp, fst (serve request (health_check settings) w) = Return resp.
Proof.
  destruct (check_db_connection_effect w) as (Hres & _).
  unfold serve, health_check, get_pool_stats. cbv [mbind M_bind].
  destruct (check_db_connection w) as [[b | e] w'] eqn:Hprobe;
    cbn [fst] in Hres; [|discriminate Hres].
  run. eauto.
Qed.

Lemma repeat_calls_step (A : Type) (n : nat) (c : M A) (w : world) (a : A)
      (w' : world) :
  c w = (Return a, w') ->
  repeat_calls (S n) c w = repeat_calls n c w'.
Proof.
  intros Hc. cbn [repeat_calls]. cbv [mbind M_bind]. now rewrite Hc.
Qed.

(** X10. While the database refuses every statement, each request to
    [/health] is answered and leaves one more session open: after [n]
    requests the open sessions are those of before followed by [n] new
    ones. *)
Theorem health_checks_leak_when_unreachable (settings : Settings)
        (request : Request) (n : nat) (w : world) :
  (forall k, db_oracle w k <> QueryOk) ->
  exists w',
    repeat_calls n (serve request (health_check settings)) w = (Return tt, w') /\
    open_sessions w' = open_sessions w ++ seq (next_id w) n.
Proof.
  revert w. induction n as [|n IH]; intros w Hdown.
  - exists w. split; [reflexivity|]. cbn. now rewrite app_nil_r.
  - destruct (health_check_world settings request w) as (Hworld & resp & Hresp).
    destruct (check_db_connection_effect w)
      as (_ & Hnext & Horacle & _ & _ & _ & _ & Hopen).
    assert (Hans : answers_ok w = false).
    { unfold answers_ok. specialize (Hdown (db_calls w)).
      now destruct (db_oracle w (db_calls w)). }
    rewrite Hans in Hopen.
    destruct (serve request (health_check settings) w) as [r w1] eqn:Hserve.
    cbn [fst snd] in Hworld, Hresp. subst r.
    destruct (IH w1) as (w' & Hrun & Hopen').
    { intros k. rewrite Hworld, Horacle. apply Hdown. }
    exists w'. split.
    + rewrite (repeat_calls_step _ n _ w resp w1 Hserve). exact Hrun.
    + rewrite Hopen', Hworld, Hopen, Hnext. cbn [seq].
      now rewrite <- app_assoc.
Qed.

Lemma health_checks_leak_when_unreachable_witness :
  (forall k, db_oracle unreachable_world k <> QueryOk) /\
  exists w',
    repeat_calls 3 (serve tasks_request (health_check production_config))
                 unreachable_world = (Return tt, w') /\
    open_sessions w' =
      open_sessions unreachable_world ++ seq (next_id unreachable_world) 3.
Proof.
  assert (Hdown : forall k, db_oracle unreachable_world k <> QueryOk).
  { intros k. cbn. discriminate. }
  split; [exact Hdown|].
  apply (health_checks_leak_when_unreachable production_config tasks_request 3
           unreachable_world Hdown).
Defined.

(** X11. While the database accepts every statement and identifiers are
    in order, polling [/health] leaves the open sessions as they were,
    however many requests are made. *)
Theorem health_checks_release_when_reachable (settings : Settings)
        (request : Request) (n : nat) (w : world) :
  (forall k, db_oracle w k = QueryOk) ->
  ids_below w ->
  exists w',
    repeat_calls n (serve request (health_check settings)) w = (Return tt, w') /\
    open_sessions w' = open_sessions w.
Proof.
  revert w. induction n as [|n IH]; intros w Hup Hbelow.
  - exists w. split; reflexivity.
  - destruct (health_check_world settings request w) as (Hworld & resp & Hresp).
    destruct (check_db_connection_effect w)
      as (_ & Hnext & Horacle & _ & _ & _ & _ & Hopen).
    assert (Hans : answers_ok w = true).
    { unfold answers_ok. now rewrite (Hup (db_calls w)). }
    rewrite Hans, (filter_drops_last (next_id w) (open_sessions w) Hbelow) in Hopen.
    destruct (serve request (health_check settings) w) as [r w1] eqn:Hserve.
    cbn [fst snd] in Hworld, Hresp. subst r.
    destruct (IH w1) as (w' & Hrun & Hopen').
    { intros k. rewrite Hworld, Horacle. apply Hup. }
    { unfold ids_below. rewrite Hworld, Hopen, Hnext.
      eapply List.Forall_impl; [|exact Hbelow]. cbn. intros s Hs. lia. }
    exists w'. split.
    + rewrite (repeat_calls_step _ n _ w resp w1 Hserve). exact Hrun.
    + rewrite Hopen', Hworld, Hopen. reflexivity.
Qed.

Lemma health_checks_release_when_reachable_witness :
  (forall k, db_oracle production_world k = QueryOk) /\
  ids_below production_world /\
  exists w',
    repeat_calls 3 (serve tasks_request (health_check production_config))
                 production_world = (Return tt, w') /\
    open_sessions w' = open_sessions production_world.
Proof.
  assert (Hup : forall k, db_oracle production_world k = QueryOk).
  { intros k. reflexivity. }
  assert (Hbelow : ids_below production_world) by constructor.
  split; [exact Hup|]. split; [exact Hbelow|].
  apply (health_checks_release_when_reachable production_config tasks_request 3
           production_world Hup Hbelow).
Defined.

(** ** Error responses *)


(** X13. What [database_exception_handler] and [general_exception_handler]
    return when they are called never depends on the text of the exception
    or on the request: at the same clock reading two calls of the same
    handler return the same response, with status 500. What
    [validation_exception_handler] returns depends on the list of errors
    only. *)
Theorem handler_responses_ignore_exception_text
        (request request' : Request) (msg msg' : string) (w w' : world) :
  clock w = clock w' ->
  fst (database_exception_handler request msg w) =
    fst (database_exception_handler request' msg' w') /\
  fst (general_exception_handler request msg w) =
    fst (general_exception_handler request' msg' w') /\
  (exists body,
     fst (general_exception_handler request msg w) =
       Return {| status_code := 500; content := body |}) /\
  forall errors,
    fst (validation_exception_handler request errors w) =
      fst (validation_exception_handler request' errors w').
Proof.
  intros Hclock.
  unfold validation_exception_handler, database_exception_handler,
    general_exception_handler.
  run. rewrite Hclock. repeat split. eexists. reflexivity.
Qed.

Lemma handler_responses_ignore_exception_text_witness :
  clock broken_schema_world = clock production_world /\
  fst (general_exception_handler tasks_request
         "division by zero" broken_schema_world) =
  fst (general_exception_handler {| method := "POST"; path := "/api/auth/login" |}
         "password authentication failed for user admin" production_world).
Proof.
  split; [reflexivity|].
  apply (handler_responses_ignore_exception_text tasks_request
           {| method := "POST"; path := "/api/auth/login" |}
           "division by zero"
           "password authentication failed for user admin"
           broken_schema_world production_world eq_refl).
Defined.

(** X14. A route that works inside the session scope and whose unit of
    work raises a SQLAlchemy error: the session is rolled back and closed
    before the handler logs the failure with the method and the path, the
    client gets the fixed 500 body, and the session is not left open. *)
Theorem scoped_database_failure_end_to_end (A : Type) (request : Request)
        (fn : Session -> M A) (k : option A -> M json)
        (name msg : string) (w w1 : world) :
  fn {| session_id := next_id w |} (snd (get_db_enter w)) =
    (Raise (Exc (SQLAlchemyError name) msg), w1) ->
  exists w2,
    serve request (scoped_route fn k) w =
      (Return {| status_code := 500;
                 content :=
                   JDict [("error", JStr "Database Error");
                          ("detail", JStr "An error occurred while processing your request. Please try again later.");
                          ("timestamp", JNum (clock w1))] |}, w2) /\
    trace w2 = trace w1 ++
               [Log LvlError ("❌ Database error during request: " ++ msg);
                SessionRollback (next_id w);
                SessionClose (next_id w);
                Log LvlDebug "✅ Database session closed";
                Log LvlError ("❌ Database error on " ++ method request ++ " " ++
                              path request ++ ": " ++ msg)] /\
    ~ In (next_id w) (open_sessions w2).
Proof.
  intros Hfn.
  destruct (get_db_resume_throw_exception {| session_id := next_id w |}
              (SQLAlchemyError name) msg w1) as (w' & Hres & Htr & Hopen).
  assert (Hscope : get_db fn w = (Raise (Exc (SQLAlchemyError name) msg), w')).
  { rewrite get_db_unfold. unfold run_scope. now rewrite Hfn, Hres. }
  assert (Hclock : clock w' = clock w1).
  { revert Hres. unfold get_db_resume, session_close, session_rollback. run.
    now intros [= <-]. }
  eexists. split.
  - unfold serve, scoped_route. cbv [mbind M_bind]. rewrite Hscope.
    unfold handle_exception, database_exception_handler. run.
    rewrite Hclock. reflexivity.
  - run. split; [|exact Hopen].
    rewrite Htr. cbn [session_id]. now rewrite <- app_assoc.
Qed.

Lemma scoped_database_failure_end_to_end_witness :
  query_handler {| session_id := next_id broken_schema_world |}
    (snd (get_db_enter broken_schema_world)) =
    (Raise (Exc (SQLAlchemyError "ProgrammingError") "relation tasks does not exist"),
     snd (query_handler {| session_id := next_id broken_schema_world |}
            (snd (get_db_enter broken_schema_world)))) /\
  exists w2,
    fst (serve tasks_request
           (scoped_route query_handler (fun _ => mret (JList [])))
           broken_schema_world) =
      Return {| status_code := 500;
                content :=
                  JDict [("error", JStr "Database Error");
                         ("detail", JStr "An error occurred while processing your request. Please try again later.");
                         ("timestamp", JNum 1700000000)] |} /\
    snd (serve tasks_request
           (scoped_route query_handler (fun _ => mret (JList [])))
           broken_schema_world) = w2 /\
    ~ In (next_id broken_schema_world) (open_sessions w2).
Proof.
  split; [reflexivity|].
  destruct (scoped_database_failure_end_to_end unit tasks_request query_handler
              (fun _ => mret (JList [])) "ProgrammingError"
              "relation tasks does not exist" broken_schema_world
              (snd (query_handler {| session_id := next_id broken_schema_world |}
                      (snd (get_db_enter broken_schema_world))))
              eq_refl) as (w2 & Hserve & _ & Hopen).
  exists w2. rewrite Hserve. repeat split. exact Hopen.
Defined.

(** ** Startup and shutdown *)

(** The startup hook once [validate_config] has accepted the settings. *)
Lemma startup_event_validated (settings : Settings) (w : world) :
  32 <= py_len (SECRET_KEY settings) ->
  startswith (DATABASE_URL settings) "postgresql://" = true ->
  startup_event settings w =
    (ok ← check_db_connection;
     (if ok : bool then mret tt
      else logger LvlError "❌ Cannot connect to database. Exiting." ;;
           sys_exit 1) ;;
     pool_stats ← get_pool_stats;
     logger LvlInfo ("📊 Database pool: " ++ repr pool_stats) ;;
     logger LvlInfo "✅ Application started successfully" ;;
     logger LvlInfo ("🌍 Environment: " ++ ENVIRONMENT settings) ;;
     logger LvlInfo ("🔧 Debug mode: " ++ bool_text (DEBUG settings)))
      (set_trace (trace w ++ [Log LvlInfo "🚀 Starting Audit Trail System..."] ++
                    production_warning settings ++
                    [Print "✅ Configuration validated successfully"]) w).
Proof.
  intros Hkey Hurl. unfold startup_event.
  cbv [mbind M_bind logger emit modify try_except_Exception].
  cbn [trace set_trace].
  rewrite (validate_config_passes settings _ Hkey Hurl).
  cbn [trace set_trace]. rewrite <- app_assoc. reflexivity.
Qed.

(** X15. The startup hook either completes or ends the process with
    status 1, nothing else: it completes exactly when the key has at least
    32 characters, the connection string starts with [postgresql://] and
    the database accepts the probe. *)
Theorem startup_event_outcome (settings : Settings) (w : world) :
  fst (startup_event settings w) =
    if (32 <=? py_len (SECRET_KEY settings)) &&
       startswith (DATABASE_URL settings) "postgresql://" &&
       answers_ok w
    then Return tt
    else Raise (SystemExit 1).
Proof.
  destruct (Z.lt_ge_cases (py_len (SECRET_KEY settings)) 32) as [Hweak | Hkey].
  - assert (Hleb : (32 <=? py_len (SECRET_KEY settings)) = false)
      by (apply Z.leb_gt; exact Hweak).
    rewrite Hleb. cbn [andb].
    now rewrite (startup_event_validation_fails settings w _ _
                   (validate_config_weak_secret settings _ Hweak)).
  - assert (Hleb : (32 <=? py_len (SECRET_KEY settings)) = true)
      by (apply Z.leb_le; exact Hkey).
    rewrite Hleb. cbn [andb].
    destruct (startswith (DATABASE_URL settings) "postgresql://") eqn:Hurl.
    + rewrite (startup_event_validated settings w Hkey Hurl). cbn [andb].
      set (w1 := set_trace _ w).
      assert (Hans : answers_ok w1 = answers_ok w) by reflexivity.
      destruct (check_db_connection_effect w1) as (Hres & _).
      rewrite Hans in Hres. cbv [mbind M_bind].
      destruct (check_db_connection w1) as [[b | e] w2];
        cbn [fst] in Hres; [|discriminate Hres].
      injection Hres as ->. destruct (answers_ok w); run; reflexivity.
    + cbn [andb].
      now rewrite (startup_event_validation_fails settings w _ _
                     (validate_config_invalid_url settings _ Hkey Hurl)).
Qed.

(** X16. With valid settings and a database that refuses the probe, the
    startup hook logs the failure of the probe, then that it cannot
    connect, and exits with status 1; the pool statistics are never read
    and the session of the probe is left open. *)
Theorem startup_event_database_down (settings : Settings) (w : world)
        cls msg :
  32 <= py_len (SECRET_KEY settings) ->
  startswith (DATABASE_URL settings) "postgresql://" = true ->
  db_oracle w (db_calls w) = QueryError cls msg ->
  exists w',
    startup_event settings w = (Raise (SystemExit 1), w') /\
    trace w' = trace w ++
               [Log LvlInfo "🚀 Starting Audit Trail System..."] ++
               production_warning settings ++
               [Print "✅ Configuration validated successfully";
                SessionNew (next_id w);
                SessionExecute (next_id w) "SELECT 1";
                Log LvlError ("❌ Database connection failed: " ++ msg);
                Log LvlError "❌ Cannot connect to database. Exiting."] /\
    open_sessions w' = open_sessions w ++ [next_id w].
Proof.
  intros Hkey Hurl Hdown.
  rewrite (startup_event_validated settings w Hkey Hurl).
  set (w1 := set_trace _ w).
  destruct (check_db_connection_error w1 cls msg Hdown)
    as (w2 & Hprobe & Htr & Hopen & _).
  eexists. split.
  - cbv [mbind M_bind]. rewrite Hprobe. run. reflexivity.
  - run. rewrite Htr, Hopen. subst w1. cbn [trace set_trace open_sessions next_id].
    split; [|reflexivity]. rewrite <- !app_assoc. reflexivity.
Qed.

Lemma startup_event_database_down_witness :
  32 <= py_len (SECRET_KEY production_config) /\
  startswith (DATABASE_URL production_config) "postgresql://" = true /\
  db_oracle unreachable_world (db_calls unreachable_world) =
    QueryError (SQLAlchemyError "OperationalError") "connection refused" /\
  exists w',
    startup_event production_config unreachable_world = (Raise (SystemExit 1), w') /\
    trace w' = trace unreachable_world ++
               [Log LvlInfo "🚀 Starting Audit Trail System..."] ++
               production_warning production_config ++
               [Print "✅ Configuration validated successfully";
                SessionNew (next_id unreachable_world);
                SessionExecute (next_id unreachable_world) "SELECT 1";
                Log LvlError ("❌ Database connection failed: " ++ "connection refused");
                Log LvlError "❌ Cannot connect to database. Exiting."] /\
    open_sessions w' = open_sessions unreachable_world ++ [next_id unreachable_world].
Proof.
  split; [vm_compute; discriminate|]. split; [reflexivity|].
  split; [reflexivity|].
  apply (startup_event_database_down production_config unreachable_world
           (SQLAlchemyError "OperationalError") "connection refused").
  - vm_compute. discriminate.
  - reflexivity.
  - reflexivity.
Defined.

Lemma closes_of_app (c : nat) (t u : list event) :
  closes_of c (t ++ u) = (closes_of c t + closes_of c u)%nat.
Proof. unfold closes_of. now rewrite List.filter_app, length_app. Qed.

Lemma closes_of_closing_events (c : nat) (conns : list nat) :
  closes_of c (closing_events conns) = count_occ Nat.eq_dec conns c.
Proof.
  induction conns as [|d r IH]; [reflexivity|].
  change (closing_events (d :: r))
    with ([ConnectionClose d; Log LvlDebug "🔌 Database connection closed"] ++
          closing_events r).
  rewrite closes_of_app, IH. cbn [count_occ]. unfold closes_of at 1. cbn.
  destruct (Nat.eq_dec d c) as [-> | Hne].
  - now rewrite Nat.eqb_refl.
  - apply Nat.eqb_neq in Hne. now rewrite Hne.
Qed.

(** X17. The shutdown hook always completes. Between its two log lines it
    closes every checked-in connection as many times as it is in the pool,
    once for distinct connections, and leaves the pool empty; it closes no
    session: the open sessions are those of before. *)
Theorem shutdown_event_closes_idle_connections (w : world) :
  exists w',
    shutdown_event w = (Return tt, w') /\
    trace w' = trace w ++
               [Log LvlInfo "🛑 Shutting down Audit Trail System...";
                Log LvlInfo "🔌 Closing database connections...";
                EngineDispose] ++
               closing_events (checked_in (pool w)) ++
               [Log LvlInfo "✅ All database connections closed";
                Log LvlInfo "✅ Shutdown complete"] /\
    (forall c, closes_of c (trace w') =
               (closes_of c (trace w) +
                count_occ Nat.eq_dec (checked_in (pool w)) c)%nat) /\
    checked_in (pool w') = [] /\
    open_sessions w' = open_sessions w.
Proof.
  eexists. split.
  - unfold shutdown_event, close_db_connections, engine_dispose. run.
    rewrite close_connections_spec. run. reflexivity.
  - run. split; [rewrite <- !app_assoc; reflexivity|].
    split; [|split; reflexivity].
    intros c. rewrite !closes_of_app, closes_of_closing_events.
    cbn. lia.
Qed.

Section Retry.
Context `{EnvCoercion}.

(** X18. A failed load is not cached: when [get_settings] raises, the cell
    stays empty, and once the environment is valid the next call reads it
    and returns the settings, from then on cached. *)
Theorem get_settings_failure_not_cached (w w1 : world) (e : base_exception) :
  get_settings w = (Raise e, w1) ->
  settings_cache w1 = None /\
  forall env cfg,
    Settings_new env = Return cfg ->
    exists o w2,
      get_settings (set_environ env w1) = (Return o, w2) /\
      settings_value o = cfg /\
      settings_cache w2 = Some o /\
      trace w2 = trace w1 ++ [ReadEnvironment].
Proof.
  intros Hfail.
  assert (Hcache : settings_cache w1 = None).
  { revert Hfail. unfold get_settings, lru_cache, get_settings_body.
    destruct (settings_cache w) as [o|] eqn:Hc; [discriminate|].
    destruct (Settings_new (os_environ w)); [discriminate|].
    intros [= _ <-]. exact Hc. }
  split; [exact Hcache|].
  intros env cfg Hnew.
  rewrite (get_settings_miss (set_environ env w1) cfg Hcache Hnew).
  do 2 eexists. split; [reflexivity|]. now run.
Qed.

End Retry.

Section Completion.
Context `{EnvCoercion} `{EngineLibrary}.



End Completion.

Lemma get_settings_failure_not_cached_witness :
  @get_settings literal_coercion no_secret_world =
    (Raise (Exc ValidationError "validation error for Settings"),
     snd (@get_settings literal_coercion no_secret_world)) /\
  settings_cache (snd (@get_settings literal_coercion no_secret_world)) = None /\
  exists o w2,
    @get_settings literal_coercion
      (set_environ production_env
         (snd (@get_settings literal_coercion no_secret_world))) = (Return o, w2) /\
    settings_value o = production_config /\
    settings_cache w2 = Some o.
Proof.
  split; [vm_compute; reflexivity|].
  destruct (@get_settings_failure_not_cached literal_coercion no_secret_world
              (snd (@get_settings literal_coercion no_secret_world))
              (Exc ValidationError "validation error for Settings"))
    as [Hcache Hretry]; [vm_compute; reflexivity|].
  split; [exact Hcache|].
  destruct (Hretry production_env production_config)
    as (o & w2 & Hget & Hval & Hc & _); [vm_compute; reflexivity|].
  exists o, w2. auto.
Defined.

